(** * NeuroDOT_py, [neuro_dot/File_IO.py]: the 4dfp/NIfTI header conversion

    A shallow embedding of the volumetric-data part of [File_IO.py]:
    [Make_NativeSpace_4dfp], [nifti_4dfp], [Read_4dfp_Header],
    [Write_4dfp_Header], [LoadVolumetricData] and [SaveVolumetricData].

    Python values are embedded as they are at run time: [int] as [Z],
    [float] as IEEE binary64 (Rocq's primitive floats), [str] as [string],
    lists as lists, a [dict] header as a finite map from key strings to
    values.  A function that can raise is a computation in a state and
    exception monad whose state is the header dictionary the function
    mutates in place (or the text written so far, for the writer).

    A function is followed statement by statement up to the first
    statement that raises on every path; what the source has after it is
    never executed and is named in the comment of the definition.  The
    files are taken as read: a definition gets the lines or the numbers
    that [open], [np.fromfile] and [nb.load] return, and what opening or
    decoding a file can raise before that ([FileNotFoundError], the
    [assert] on the path, [UnicodeDecodeError]) is outside the model.
    In numpy a
    one-element array is stored into a cell of a float array as its
    element, as lines 263-301 of the source rely on. *)

From Stdlib Require Import ZArith Ascii String List PrimFloat FloatOps.
From stdpp Require Import base option list gmap strings pretty.

#[local] Set Warnings "-register-all".
Open Scope string_scope.
Open Scope Z_scope.

(** ** Python values *)

(** The values a header dictionary of this module holds: numbers, strings
    and (possibly nested) lists of them.  A one-dimensional numpy array of
    floats, such as the [center] computed by [Make_NativeSpace_4dfp], is a
    [VList] of [VFloat]s. *)
Inductive pyval : Type :=
| VInt (z : Z)
| VFloat (f : float)
| VStr (s : string)
| VList (l : list pyval).

Abbreviation dict := (gmap string pyval).

(** The exceptions the modelled statements raise.  [ReshapeError size shape]
    is numpy's [ValueError("cannot reshape array of size <size> into shape
    <shape>")]; it is kept apart from the other [ValueError]s because its
    message carries both numbers. *)
Inductive exn : Type :=
| KeyError (key : string)
| IndexError
| TypeError (what : string)
| ValueError (what : string)
| ReshapeError (size : Z) (shape : list Z)
| AxisError (axis : nat)
| OverflowError
| AttributeError (attr : string)
| NameError (name : string)
| UnboundLocalError (name : string).

(** The Python class of an exception. *)
Definition exn_class (e : exn) : string :=
  match e with
  | KeyError _ => "KeyError"
  | IndexError => "IndexError"
  | TypeError _ => "TypeError"
  | ValueError _ => "ValueError"
  | ReshapeError _ _ => "ValueError"
  | AxisError _ => "AxisError"
  | OverflowError => "OverflowError"
  | AttributeError _ => "AttributeError"
  | NameError _ => "NameError"
  | UnboundLocalError _ => "UnboundLocalError"
  end.

Inductive result (A : Type) : Type :=
| Ok (a : A)
| Raise (e : exn).
Arguments Ok {A} a.
Arguments Raise {A} e.

Definition is_ok {A} (r : result A) : bool :=
  match r with Ok _ => true | Raise _ => false end.

(** ** The monad: a header mutated in place, and exceptions *)

Module PyM.

(** A computation reads and updates a state and either returns or
    raises.  The state is returned in both cases: an exception does not
    undo the assignments (or the output) made before it. *)
Definition St (S A : Type) : Type := S -> result A * S.

Definition ret {S A} (a : A) : St S A := fun h => (Ok a, h).

Definition bind {S A B} (c : St S A) (k : A -> St S B) : St S B :=
  fun h => match c h with
           | (Ok a, h') => k a h'
           | (Raise e, h') => (Raise e, h')
           end.

Definition raise {S A} (e : exn) : St S A := fun h => (Raise e, h).

Definition lift {S A} (r : result A) : St S A := fun h => (r, h).

(** [if b: c] *)
Definition when {S} (b : bool) (c : St S unit) : St S unit :=
  if b then c else ret tt.

(** The state of most functions is the dictionary bound to [header_in]
    (or [header]), which they mutate in place. *)
Definition M : Type -> Type := St dict.

(** [key in header] *)
Definition contains (key : string) : M bool :=
  fun h => (Ok (bool_decide (is_Some (h !! key))), h).

(** [header[key]] *)
Definition getitem (key : string) : M pyval :=
  fun h => match h !! key with
           | Some v => (Ok v, h)
           | None => (Raise (KeyError key), h)
           end.

(** [header[key] = v] *)
Definition setitem (key : string) (v : pyval) : M unit :=
  fun h => (Ok tt, <[key := v]> h).

End PyM.
Import PyM.

Notation "x <- c ;; k" := (bind c (fun x => k))
  (at level 100, c at next level, right associativity).
Notation "c ;;; k" := (bind c (fun _ => k))
  (at level 100, right associativity).

(** The pure counterpart for code that raises but touches no header. *)
Definition rbind {A B} (r : result A) (k : A -> result B) : result B :=
  match r with Ok a => k a | Raise e => Raise e end.

Notation "x <~ r ;; k" := (rbind r (fun x => k))
  (at level 100, r at next level, right associativity).

(** [for x in xs: body], threading the loop-carried variables [acc]. *)
Fixpoint rfold {A B} (body : A -> B -> result A) (xs : list B) (acc : A)
  : result A :=
  match xs with
  | [] => Ok acc
  | x :: xs' => acc' <~ body acc x ;; rfold body xs' acc'
  end.

(** ** Python and numpy primitives *)

(** Conversion of a Python [int] to binary64, rounding to nearest even. *)
Definition Z2float (z : Z) : float :=
  SF2Prim (SpecFloat.binary_normalize prec emax z 0 false).

(** [float(z)], also the implicit conversion of an [int] operand in mixed
    arithmetic: [OverflowError] beyond the binary64 range. *)
Definition int_to_float (z : Z) : result float :=
  let f := Z2float z in
  if is_infinity f then Raise OverflowError else Ok f.

(** [int(f)] for a float: truncation towards zero. *)
Definition float_to_int (f : float) : result Z :=
  match Prim2SF f with
  | SpecFloat.S754_zero _ => Ok 0
  | SpecFloat.S754_infinity _ => Raise OverflowError
  | SpecFloat.S754_nan => Raise (ValueError "cannot convert float NaN to integer")
  | SpecFloat.S754_finite s m e =>
      let a := if 0 <=? e then Z.pos m * 2 ^ e else Z.pos m / 2 ^ (- e) in
      Ok (if s then - a else a)
  end.

(** The built-ins that work on the text of a number are taken as they are:
    [int(s)] and [float(s)] for a string [s] ([None] is their [ValueError])
    and [str(v)]; so is [x**2] for a float [x], which is the C library's
    [pow(x, 2.0)]. *)
Class Builtins : Type := {
  str_to_int : string -> option Z;
  str_to_float : string -> option float;
  py_str : pyval -> string;
  float_sqr : float -> float
}.

(** [v == s] for a string literal [s]. *)
Definition py_eq_str (v : pyval) (s : string) : bool :=
  match v with
  | VStr s' => bool_decide (s' = s)
  | _ => false
  end.

(** [v == n] for a small integer literal [n]; a float compares by value. *)
Definition py_eq_int (v : pyval) (n : Z) : bool :=
  match v with
  | VInt m => m =? n
  | VFloat f => (f =? Z2float n)%float
  | _ => false
  end.

(** Unary minus. *)
Definition py_neg (v : pyval) : result pyval :=
  match v with
  | VInt z => Ok (VInt (- z))
  | VFloat f => Ok (VFloat (- f)%float)
  | _ => Raise (TypeError "bad operand type for unary -")
  end.

(** [v[i]] for a literal index [i >= 0]. *)
Definition py_index (v : pyval) (i : nat) : result pyval :=
  match v with
  | VList l => match l !! i with Some x => Ok x | None => Raise IndexError end
  | VStr s => match String.get i s with
              | Some c => Ok (VStr (String c EmptyString))
              | None => Raise IndexError
              end
  | _ => Raise (TypeError "object is not subscriptable")
  end.

Section Conversions.
Context {py : Builtins}.

(** [int(v)] *)
Definition py_int (v : pyval) : result Z :=
  match v with
  | VInt z => Ok z
  | VFloat f => float_to_int f
  | VStr s => match str_to_int s with
              | Some z => Ok z
              | None => Raise (ValueError "invalid literal for int()")
              end
  | VList _ => Raise (TypeError "int() argument must be a string or a number")
  end.

(** [a[i] = v] where [a[i]] is one cell (or a row of length 1) of a
    float64 array: numbers are converted, a string is parsed, a sequence
    of one element gives that element. *)
Fixpoint np_float (v : pyval) : result float :=
  match v with
  | VInt z => int_to_float z
  | VFloat f => Ok f
  | VStr s => match str_to_float s with
              | Some f => Ok f
              | None => Raise (ValueError "could not convert string to float")
              end
  | VList [x] => np_float x
  | VList _ => Raise (ValueError "could not broadcast input array")
  end.

End Conversions.

(** A number as an operand of a float64 ufunc. *)
Definition np_number (v : pyval) : result float :=
  match v with
  | VInt z => int_to_float z
  | VFloat f => Ok f
  | _ => Raise (TypeError "ufunc did not contain a loop with matching types")
  end.

(** [np.multiply(v, a)] for a float64 array [a] of three elements: [v] is
    a number or a flat sequence of numbers, of length three, or of length
    one and then broadcast.  (No function of the module stores a nested
    sequence under [mmppix]; the model raises for one.) *)
Definition np_multiply3 (v : pyval) (a : list float) : result (list float) :=
  xs <~ match v with
        | VList l => rfold (fun acc x => f <~ np_number x ;; Ok (app acc [f])) l []
        | _ => f <~ np_number v ;; Ok [f]
        end ;;
  match xs with
  | [x] => Ok (map (fun y => (x * y)%float) a)
  | [x0; x1; x2] => Ok (zip_with (fun x y => (x * y)%float) xs a)
  | _ => Raise (ValueError "operands could not be broadcast together")
  end.

(** ** [Make_NativeSpace_4dfp] (lines 170-196) *)

Section NativeSpace.
Context {py : Builtins}.

(** [header_out = header_in] binds a second name to the same dictionary,
    so the function completes its argument in place and returns it.  The
    two [print] calls (which do not raise) are left out. *)
Definition Make_NativeSpace_4dfp : M unit :=
  has_mmppix <- contains "mmppix" ;;
  when (negb has_mmppix)
    (mmx <- getitem "mmx" ;;
     mmy <- getitem "mmy" ;;
     neg_mmy <- lift (py_neg mmy) ;;
     mmz <- getitem "mmz" ;;
     neg_mmz <- lift (py_neg mmz) ;;
     setitem "mmppix" (VList [mmx; neg_mmy; neg_mmz])) ;;;
  has_center <- contains "center" ;;
  when (negb has_center)
    (mmppix <- getitem "mmppix" ;;
     nVx <- getitem "nVx" ;;
     nx <- lift (py_int nVx) ;;
     nVy <- getitem "nVy" ;;
     ny <- lift (py_int nVy) ;;
     nVz <- getitem "nVz" ;;
     nz <- lift (py_int nVz) ;;
     (* np.array([nx, ny, nz])/2 *)
     fx <- lift (int_to_float nx) ;;
     fy <- lift (int_to_float ny) ;;
     fz <- lift (int_to_float nz) ;;
     let halves := [fx / 2; fy / 2; fz / 2]%float in
     (* np.add(..., [0, 1, 1]) *)
     let shifted := zip_with PrimFloat.add halves [0; 1; 1]%float in
     center <- lift (np_multiply3 mmppix shifted) ;;
     setitem "center" (VList (map VFloat center))).

End NativeSpace.

(** ** Arrays *)

(** A two-dimensional float64 array, row by row.  Every index the code
    uses on one is a loop counter or an entry of [order] between 0 and 2,
    so it is in range. *)
Definition matrix : Type := list (list float).

Definition np_zeros (rows cols : nat) : matrix :=
  replicate rows (replicate cols 0%float).

Definition mget (m : matrix) (i j : nat) : float :=
  default 0%float (m !! i ≫= lookup j).

Definition mset (m : matrix) (i j : nat) (v : float) : matrix :=
  alter (insert j v) i m.

(** A vector of floats ([dim], [spacing], [center], of shape (n,1)). *)
Definition vget (v : list float) (i : nat) : float := default 0%float (v !! i).

(** [order[i]], an axis number. *)
Definition oget (order : list Z) (i : nat) : nat := Z.to_nat (default 0 (order !! i)).

(** [for x in xs: body] *)
Definition for_each {A B} (xs : list B) (body : A -> B -> A) (acc : A) : A :=
  fold_left body xs acc.

(** A voxel array: its shape and its elements in C order. *)
Record ndarray : Type := mk_ndarray { shape : list nat; data : list float }.

(** ** The to-LPI step (lines 304-327, and again 524-547) *)

(** The inner loop over [j]: [max] and [k] after it.  [~(used & (1<<j))]
    is Python's bitwise complement of an integer, taken as a truth value by
    [np.logical_and]. *)
Definition to_lpi_column (sform : matrix) (used : Z) (i : nat) : float * Z :=
  for_each [0; 1; 2]%nat
    (fun '(max, k) j =>
       if negb (Z.lnot (Z.land used (Z.shiftl 1 (Z.of_nat j))) =? 0)
          && (max <? abs (mget sform j i))%float
       then (abs (mget sform j i), Z.of_nat j)
       else (max, k))
    ((-1)%float, -1).

(** The loop over [i] in [0,1] and the choice of [order[2]]:
    [1 << k] raises for a negative [k]. *)
Definition to_lpi_order (sform : matrix) (order : list Z) : result (Z * list Z) :=
  r <~ rfold (fun '(used, order) i =>
                let k := (to_lpi_column sform used i).2 in
                if k <? 0 then Raise (ValueError "negative shift count")
                else Ok (Z.lor used (Z.shiftl 1 k), <[i := k]> order))
             [0; 1]%nat (0, order) ;;
  let '(used, order) := r in
  Ok (used,
      if used =? 3 then <[2%nat := 2]> order
      else if used =? 5 then <[2%nat := 1]> order
      else if used =? 6 then <[2%nat := 0]> order
      else order).

(** The flip mask, called [orientation] in the source. *)
Definition flip_mask (sform : matrix) (order : list Z) : Z :=
  for_each [0; 1; 2]%nat
    (fun orientation i =>
       if (mget sform (oget order i) i <? 0)%float
       then Z.lxor orientation (Z.shiftl 1 (Z.of_nat i))
       else orientation)
    0.

Definition to_lpi (sform : matrix) (order : list Z) : result (list Z * Z) :=
  r <~ to_lpi_order sform order ;;
  Ok (r.2, flip_mask sform r.2).

(** [auto_orient_header], the loop that flips the axes of the mask
    (lines 329-334). *)
Definition flip_axes (sform : matrix) (orientation : Z) (d : list float) : matrix :=
  for_each [0; 1; 2]%nat
    (fun sform i =>
       if negb (Z.land orientation (Z.shiftl 1 (Z.of_nat i)) =? 0)
       then for_each [0; 1; 2]%nat
              (fun sform j =>
                 let sform :=
                   mset sform j 3 ((vget d i - 1) * mget sform j i + mget sform j 3)%float in
                 mset sform j i (- mget sform j i)%float)
              sform
       else sform)
    sform.

(** ** [nifti_4dfp], mode 'n': a 4dfp header to a NIfTI header *)

Section Nifti4dfp.
Context {py : Builtins}.

(** [header_in[key][i]] stored into a cell of a float64 array. *)
Definition getcell (key : string) (i : nat) : M float :=
  v <- getitem key ;;
  x <- lift (py_index v i) ;;
  lift (np_float x).

(** Lines 227-231.  The second branch assigns the key ['orienation']. *)
Definition check_orientation : M unit :=
  has_acq <- contains "acq" ;;
  when has_acq
    (acq <- getitem "acq" ;;
     if py_eq_str acq "transverse" then setitem "orientation" (VInt 2)
     else if py_eq_str acq "sagittal" then setitem "orienation" (VInt 4)
     else ret tt).

(** Lines 242-254: the order of the axes for the orientation. *)
Definition adjust_order (order : list Z) : M (list Z) :=
  has_orientation <- contains "orientation" ;;
  when has_orientation
    (has_acq <- contains "acq" ;;
     when has_acq
       (acq <- getitem "acq" ;;
        when (py_eq_str acq "coronal") (setitem "orientation" (VInt 3)))) ;;;
  orientation <- getitem "orientation" ;;
  if py_eq_int orientation 4 then
    let tempv := default 0 (order !! 1%nat) in
    let order := <[1%nat := default 0 (order !! 0%nat)]> order in
    ret (<[0%nat := tempv]> order)
  else if py_eq_int orientation 3 then
    let tempv := default 0 (order !! 2%nat) in
    let order := <[2%nat := default 0 (order !! 1%nat)]> order in
    ret (<[1%nat := tempv]> order)
  else ret order.

(** Lines 259-276: [dim], [spacing] and [center]. *)
Definition read_geometry : M (list float * list float * list float) :=
  has_nVx <- contains "nVx" ;;
  when has_nVx
    (nVx <- getitem "nVx" ;;
     nVy <- getitem "nVy" ;;
     nVz <- getitem "nVz" ;;
     nVt <- getitem "nVt" ;;
     setitem "matrix_size" (VList [nVx; nVy; nVz; nVt])) ;;;
  d0 <- getcell "matrix_size" 0 ;;
  d1 <- getcell "matrix_size" 1 ;;
  d2 <- getcell "matrix_size" 2 ;;
  d3 <- getcell "matrix_size" 3 ;;
  s0 <- getcell "mmppix" 0 ;;
  s1 <- getcell "mmppix" 1 ;;
  s2 <- getcell "mmppix" 2 ;;
  c0 <- getcell "center" 0 ;;
  c1 <- getcell "center" 1 ;;
  c2 <- getcell "center" 2 ;;
  ret ([d0; d1; d2; d3], [s0; s1; s2], [c0; c1; c2]).

(** Lines 278-285: the inverted center of the sagittal and coronal
    orientations, on [axis]. *)
Definition invert_center (axis : nat) (dim spacing center : list float)
  : list float * list float :=
  let center := <[axis := (- vget center axis)%float]> center in
  let spacing := <[axis := (- vget spacing axis)%float]> spacing in
  let center :=
    <[axis := (vget spacing axis * (vget dim axis + 1) - vget center axis)%float]> center in
  (spacing, center).

(** Lines 287-290: Fortran indexing. *)
Definition fortran_center (spacing center : list float) : list float :=
  for_each [0; 1; 2]%nat
    (fun center i =>
       let center := <[i := (vget center i - vget spacing i)%float]> center in
       <[i := (- vget center i)%float]> center)
    center.

(** Lines 291-301: spacing and center applied to [sform]. *)
Definition apply_spacing (sform : matrix) (spacing center : list float) : matrix :=
  let t4trans :=
    for_each [0; 1; 2]%nat
      (fun t i => for_each [0; 1; 2; 3]%nat (fun t j => mset t i j (mget sform i j)) t)
      (np_zeros 4 4) in
  for_each [0; 1; 2]%nat
    (fun sform i =>
       let sform :=
         for_each [0; 1; 2]%nat
           (fun sform j => mset sform i j (mget t4trans i j * vget spacing j)%float)
           sform in
       for_each [0; 1; 2]%nat
         (fun sform j =>
            mset sform i 3 (mget sform i 3 + vget center j * mget t4trans i j)%float)
         sform)
    sform.

(** The whole branch.  [np.zeros(3,4)] on line 336 passes 4 as the
    [dtype] of [np.zeros(shape, dtype)], which numpy refuses with a
    [TypeError]; the statements after it (the NIfTI header of lines
    357-385, the voxel reordering of lines 388-447) are not reached. *)
Definition nifti_4dfp_n (img_in : ndarray) : M (ndarray * dict) :=
  let order := [0; 1; 2; 3] in
  check_orientation ;;;
  let sform := np_zeros 3 4 in
  order <- adjust_order order ;;
  let sform := for_each [0; 1; 2]%nat (fun sform i => mset sform (oget order i) i 1%float) sform in
  g <- read_geometry ;;
  let '(dim, spacing, center) := g in
  orientation <- getitem "orientation" ;;
  let '(spacing, center) :=
    if py_eq_int orientation 4 then invert_center 2 dim spacing center
    else if py_eq_int orientation 3 then invert_center 0 dim spacing center
    else (spacing, center) in
  let center := fortran_center spacing center in
  let sform := apply_spacing sform spacing center in
  lpi <- lift (to_lpi sform order) ;;
  let '(order, orientation) := lpi in
  let sform := flip_axes sform orientation dim in
  raise (TypeError "Cannot interpret '4' as a data type").

(** ** [nifti_4dfp], mode '4': a NIfTI header to a 4dfp header *)

(** Lines 461-468 for [key = 'sform_code'], 470-477 for ['qform_code']
    (and lines 122-138 of [LoadVolumetricData]): the names of three codes
    become numbers; the chain has no final [else]. *)
Definition normalize_code (key : string) : M unit :=
  code <- getitem key ;;
  if py_eq_str code "scanner" then setitem key (VInt 1)
  else if py_eq_str code "talairach" then setitem key (VInt 3)
  else if py_eq_str code "unknown" then setitem key (VInt 2)
  else if py_eq_int code 0 then setitem key (VInt 0)
  else ret tt.

(** [header_in[key][i]] as an operand of float arithmetic. *)
Definition getnum (key : string) (i : nat) : M float :=
  v <- getitem key ;;
  x <- lift (py_index v i) ;;
  lift (np_number x).

(** Lines 487-490: the affine rows of the header. *)
Definition srow_sform (sform : matrix) : M matrix :=
  for_each [0; 1; 2; 3]%nat
    (fun (c : M matrix) i =>
       sform <- c ;;
       x <- getcell "srow_x" i ;;
       y <- getcell "srow_y" i ;;
       z <- getcell "srow_z" i ;;
       ret (mset (mset (mset sform 0 i x) 1 i y) 2 i z))
    (ret sform).

(** Lines 493-518: the rotation of the quaternion, scaled by [pixdim].
    The components are taken as floats. *)
Definition quaternion_sform (sform : matrix) : M matrix :=
  qb <- getitem "quatern_b" ;;
  qc <- getitem "quatern_c" ;;
  qd <- getitem "quatern_d" ;;
  b <- lift (np_number qb) ;;
  c <- lift (np_number qc) ;;
  d <- lift (np_number qd) ;;
  let sq := float_sqr in
  let r := (1 - (sq b + sq c + sq d))%float in
  if (r <? 0)%float then raise (ValueError "math domain error") else
  let a := sqrt r in
  let sform := mset sform 0 0 (sq a + sq b - sq c - sq d)%float in
  let sform := mset sform 0 1 (2 * b * c - 2 * a * d)%float in
  let sform := mset sform 0 2 (2 * b * d + 2 * a * c)%float in
  let sform := mset sform 1 0 (2 * b * c + 2 * a * d)%float in
  let sform := mset sform 1 1 (sq a + sq c - sq b - sq d)%float in
  let sform := mset sform 1 2 (2 * c * d - 2 * a * b)%float in
  let sform := mset sform 2 0 (2 * b * d - 2 * a * c)%float in
  let sform := mset sform 2 1 (2 * c * d + 2 * a * b)%float in
  let sform := mset sform 2 2 (sq a + sq d - sq c - sq b)%float in
  p0 <- getnum "pixdim" 0 ;;
  when (p0 <? 0)%float
    (pixdim <- getitem "pixdim" ;;
     p3 <- lift (py_index pixdim 3) ;;
     n3 <- lift (py_neg p3) ;;
     setitem "pixdim"
       (match pixdim with VList l => VList (<[3%nat := n3]> l) | _ => pixdim end)) ;;;
  sform <- for_each [0; 1; 2]%nat
    (fun (k : M matrix) j =>
       sform <- k ;;
       p1 <- getnum "pixdim" 1 ;;
       let sform := mset sform j 0 (mget sform j 0 * p1)%float in
       p2 <- getnum "pixdim" 2 ;;
       let sform := mset sform j 1 (mget sform j 1 * p2)%float in
       p3 <- getnum "pixdim" 3 ;;
       ret (mset sform j 2 (mget sform j 2 * p3)%float))
    (ret sform) ;;
  qx <- getitem "qoffset_x" ;;
  x <- lift (np_float qx) ;;
  qy <- getitem "qoffset_y" ;;
  y <- lift (np_float qy) ;;
  qz <- getitem "qoffset_z" ;;
  z <- lift (np_float qz) ;;
  ret (mset (mset (mset sform 0 3 x) 1 3 y) 2 3 z).

(** Lines 520-522: no sform and no qform. *)
Definition originless_sform (sform : matrix) : M matrix :=
  p1 <- getcell "pixdim" 1 ;;
  p2 <- getcell "pixdim" 2 ;;
  p3 <- getcell "pixdim" 3 ;;
  ret (mset (mset (mset sform 0 0 p1) 1 1 p2) 2 2 p3).

(** Lines 550-552. *)
Definition revorder_of (order : list Z) : list float :=
  for_each [0; 1; 2; 3]%nat
    (fun revorder i => <[oget order i := Z2float (Z.of_nat i)]> revorder)
    (replicate 4 0%float).

(** Lines 461-522: the codes, then [sform] from the affine rows, from the
    quaternion or from the pixel sizes. *)
Definition sform_of_header : M matrix :=
  normalize_code "sform_code" ;;;
  normalize_code "qform_code" ;;;
  let sform := np_zeros 4 4 in
  sform_code <- getitem "sform_code" ;;
  if negb (py_eq_str sform_code "unknown") then srow_sform sform
  else
    qform_code <- getitem "qform_code" ;;
    if negb (py_eq_str qform_code "unknown") then quaternion_sform sform
    else originless_sform sform.

(** The whole branch.  A value under ['raw'] replaces [header_in]; the
    values of this model are numbers, strings and lists, and subscripting
    one with ['sform_code'] is a [TypeError].  [np.zeros(3,4)] on line 557
    raises as on line 336; the statements after it (the 4dfp header of
    lines 639-649 among them) are not reached. *)
Definition nifti_4dfp_4 (img_in : ndarray) : M (ndarray * dict) :=
  has_raw <- contains "raw" ;;
  when has_raw
    (raise (TypeError "indices must be integers, not str")) ;;;
  let order := [0; 1; 2; 3] in
  sform <- sform_of_header ;;
  lpi <- lift (to_lpi sform order) ;;
  let '(order, orientation) := lpi in
  let revorder := revorder_of order in
  r0 <- lift (float_to_int (vget revorder 0)) ;;
  let orientation := Z.lxor orientation (Z.shiftl 1 r0) in
  r1 <- lift (float_to_int (vget revorder 1)) ;;
  let orientation := Z.lxor orientation (Z.shiftl 1 r1) in
  raise (TypeError "Cannot interpret '4' as a data type").

(** [nifti_4dfp(header_in, img_in, mode)]: with any other [mode] neither
    branch runs and the [return] reads two unassigned variables. *)
Definition nifti_4dfp (img_in : ndarray) (mode : string) : M (ndarray * dict) :=
  if bool_decide (mode = "n") then nifti_4dfp_n img_in
  else if bool_decide (mode = "4") then nifti_4dfp_4 img_in
  else raise (UnboundLocalError "img_out").

End Nifti4dfp.

(** ** Voxel arrays: [np.reshape], [np.squeeze], [np.flip] *)

Definition product (l : list nat) : nat := fold_right Nat.mul 1%nat l.

(** [np.reshape(a, shape)] of a flat array.  numpy first converts every
    entry of [shape] to a C [intp]: one outside the 64-bit range is a
    [ValueError] that names no size.  A negative entry stands for the one
    dimension numpy infers; without one the product of the entries must
    be the number of elements.  A product that does not fit an [intp] is
    reported as a mismatch. *)
Definition np_reshape (a : list float) (shp : list Z) : result ndarray :=
  let size := Z.of_nat (length a) in
  if existsb (fun d => (d <? - 2 ^ 63) || (2 ^ 63 <=? d)) shp then
    Raise (ValueError "Maximum allowed dimension exceeded")
  else
  let known := fold_right Z.mul 1 (filter (fun d => 0 ≤ d) shp) in
  if 2 ^ 63 <=? known then Raise (ReshapeError size shp) else
  match length (filter (fun d => d < 0) shp) with
  | O =>
      if known =? size then Ok (mk_ndarray (map Z.to_nat shp) a)
      else Raise (ReshapeError size shp)
  | S O =>
      if (known =? 0) || negb (size mod known =? 0) then Raise (ReshapeError size shp)
      else Ok (mk_ndarray (map (fun d => Z.to_nat (if d <? 0 then size / known else d)) shp) a)
  | _ => Raise (ValueError "can only specify one unknown dimension")
  end.

(** [np.squeeze(a)]: the axes of length one are dropped. *)
Definition np_squeeze (a : ndarray) : ndarray :=
  mk_ndarray (filter (fun d => d ≠ 1%nat) (shape a)) (data a).

(** [n] consecutive blocks of [sz] elements. *)
Fixpoint chunks {A} (sz n : nat) (l : list A) : list (list A) :=
  match n with
  | O => []
  | S n' => take sz l :: chunks sz n' (drop sz l)
  end.

(** [np.flip(a, axis)]: inside every block spanned by the axes from [axis]
    on, the sub-blocks along [axis] are put in reverse order. *)
Definition np_flip (a : ndarray) (axis : nat) : result ndarray :=
  match shape a !! axis with
  | None => Raise (AxisError axis)
  | Some n =>
      let inner := product (drop (S axis) (shape a)) in
      let outer := product (take axis (shape a)) in
      Ok (mk_ndarray (shape a)
            (concat (map (fun blk => concat (rev (chunks inner n blk)))
                         (chunks (n * inner) outer (data a)))))
  end.

(** ** The image file: [np.fromfile(fp, dtype='<f')] *)

(** The binary32 number of a 32-bit pattern, held in binary64, which has
    every binary32 value: sign, eight bits of exponent, 23 of mantissa. *)
Definition float32_of_Z (w : Z) : float :=
  let e := Z.land (Z.shiftr w 23) 255 in
  let m := Z.land w (2 ^ 23 - 1) in
  let x :=
    if e =? 255 then (if m =? 0 then infinity else nan)
    else if e =? 0 then Z.ldexp (Z2float m) (- 149)
    else Z.ldexp (Z2float (m + 2 ^ 23)) (e - 150) in
  if Z.testbit w 31 then (- x)%float else x.

(** Four bytes, the least significant first. *)
Definition float32_of_bytes (b0 b1 b2 b3 : Byte.byte) : float :=
  float32_of_Z (Z.of_N (Byte.to_N b0) + 2 ^ 8 * Z.of_N (Byte.to_N b1)
                + 2 ^ 16 * Z.of_N (Byte.to_N b2) + 2 ^ 24 * Z.of_N (Byte.to_N b3)).

(** The whole items of the file, in order; the one, two or three bytes
    that may follow the last whole item are dropped without a word. *)
Fixpoint np_fromfile (bytes : list Byte.byte) : list float :=
  match bytes with
  | b0 :: b1 :: b2 :: b3 :: rest => float32_of_bytes b0 b1 b2 b3 :: np_fromfile rest
  | _ => []
  end.

(** ** [LoadVolumetricData] (lines 66-167) *)

Section Load.
Context {py : Builtins}.

(** Lines 98-111, on the header [Read_4dfp_Header] returned and the
    floats [np.fromfile] read from the [.img] file ([dtype '<f']: the
    whole 4-byte items of the file; binary64 holds each of them). *)
Definition load_4dfp_volume (img : list float) : M ndarray :=
  Make_NativeSpace_4dfp ;;;
  nVx <- getitem "nVx" ;;
  nx <- lift (py_int nVx) ;;
  nVy <- getitem "nVy" ;;
  ny <- lift (py_int nVy) ;;
  nVz <- getitem "nVz" ;;
  nz <- lift (py_int nVz) ;;
  nVt <- getitem "nVt" ;;
  nt <- lift (py_int nVt) ;;
  reshaped <- lift (np_reshape img [nx; ny; nz; nt]) ;;
  let volume := np_squeeze reshaped in
  acq <- getitem "acq" ;;
  if py_eq_str acq "transverse" then
    lift (np_flip volume 1)
  else if py_eq_str acq "coronal" then
    lift (v <~ np_flip volume 1 ;; np_flip v 2)
  else if py_eq_str acq "sagittal" then
    lift (v <~ np_flip volume 0 ;; v <~ np_flip v 1 ;; np_flip v 2)
  else ret volume.

(** Lines 113-140, on the header of the file nibabel loaded.  The call
    on line 140 passes [volume], a local variable that is assigned only
    on the next line: reading it raises. *)
Definition load_nifti_volume : M (ndarray * dict) :=
  normalize_code "sform_code" ;;;
  normalize_code "qform_code" ;;;
  raise (UnboundLocalError "volume").

End Load.

(** ** Text: [str.split], [str.strip] *)

Definition nl : string := String (Ascii.ascii_of_nat 10) EmptyString.

(** [s.split(sep)] for a separator of at least one character: [cur] is the
    piece being read, [skip] the characters of a separator still to pass. *)
Fixpoint split_on_aux (sep : string) (skip : nat) (cur s : string) : list string :=
  match s with
  | EmptyString => [cur]
  | String c s' =>
      match skip with
      | S n => split_on_aux sep n cur s'
      | O =>
          if String.prefix sep s
          then cur :: split_on_aux sep (String.length sep - 1) EmptyString s'
          else split_on_aux sep 0 (String.append cur (String c EmptyString)) s'
      end
  end.

Definition split_on (sep s : string) : list string :=
  split_on_aux sep 0 EmptyString s.

(** The characters [str.strip] and [str.split] take as white space, among
    the one-byte ones. *)
Definition is_space (c : Ascii.ascii) : bool :=
  let n := Ascii.nat_of_ascii c in
  ((9 <=? n) && (n <=? 13) || (28 <=? n) && (n <=? 32))%nat.

Fixpoint lstrip (s : string) : string :=
  match s with
  | String c s' => if is_space c then lstrip s' else s
  | EmptyString => EmptyString
  end.

Fixpoint rstrip (s : string) : string :=
  match s with
  | String c s' =>
      match rstrip s' with
      | EmptyString => if is_space c then EmptyString else String c EmptyString
      | r => String c r
      end
  | EmptyString => EmptyString
  end.

Definition strip (s : string) : string := rstrip (lstrip s).

(** [s.split()]: the maximal runs of characters that are not white space. *)
Fixpoint split_ws_aux (cur s : string) : list string :=
  match s with
  | EmptyString => match cur with EmptyString => [] | _ => [cur] end
  | String c s' =>
      if is_space c
      then match cur with
           | EmptyString => split_ws_aux EmptyString s'
           | _ => cur :: split_ws_aux EmptyString s'
           end
      else split_ws_aux (String.append cur (String c EmptyString)) s'
  end.

Definition split_ws (s : string) : list string := split_ws_aux EmptyString s.

(** ** [Read_4dfp_Header] (lines 687-787) *)

Section TextHeader.
Context {py : Builtins}.

(** Lines 705-712, on the lines of the [.ifh] file (without their line
    ends, which [strip] would remove): the key/value pairs of the lines
    that hold exactly one [:=].  The model starts from the lines the file
    yielded: lines 701-705 open the file twice and [assert] that the path
    exists, and can raise on their own before a line is read. *)
Definition read_pairs (lines : list string) : gmap string string :=
  for_each lines
    (fun header_ifh line =>
       match split_on ":=" line with
       | [key; value] => <[strip key := strip value]> header_ifh
       | _ => header_ifh
       end)
    ∅.

(** [if src in keys: header[dst] = header_ifh[src]] *)
Definition copy_text (header_ifh : gmap string string) (src dst : string)
  (header : dict) : dict :=
  match header_ifh !! src with
  | Some v => <[dst := VStr v]> header
  | None => header
  end.

Definition parse_float (s : string) : result float :=
  match str_to_float s with
  | Some f => Ok f
  | None => Raise (ValueError "could not convert string to float")
  end.

(** [if src in keys: header[dst] = float(header_ifh[src])] *)
Definition copy_float (header_ifh : gmap string string) (src dst : string)
  (header : dict) : result dict :=
  match header_ifh !! src with
  | Some v => f <~ parse_float v ;; Ok (<[dst := VFloat f]> header)
  | None => Ok header
  end.

(** [if src in keys: header[src] = list(map(float, header_ifh[src].split()))] *)
Definition copy_vector (header_ifh : gmap string string) (src : string)
  (header : dict) : result dict :=
  match header_ifh !! src with
  | Some v =>
      fs <~ rfold (fun acc w => f <~ parse_float w ;; Ok (app acc [VFloat f]))
                  (split_ws v) [] ;;
      Ok (<[src := VList fs]> header)
  | None => Ok header
  end.

Definition Read_4dfp_Header (lines : list string) : result dict :=
  let ifh := read_pairs lines in
  let header : dict := ∅ in
  let header := copy_text ifh "version of keys" "version_of_keys" header in
  let header := copy_text ifh "number format" "format" header in
  let header := copy_text ifh "conversion program" "conversion_program" header in
  let header := copy_text ifh "name of data file" "filename" header in
  let header := copy_text ifh "number of bytes per pixel" "bytes_per_pixel" header in
  let header :=
    match ifh !! "imagedata byte order" with
    | Some "littleendian" => <["byte" := VStr "l"]> header
    | _ => <["byte" := VStr "b"]> header
    end in
  let header :=
    match ifh !! "orientation" with
    | Some "2" => <["acq" := VStr "transverse"]> header
    | Some "3" => <["acq" := VStr "coronal"]> header
    | Some "4" => <["acq" := VStr "sagittal"]> header
    | _ => header
    end in
  let header := copy_text ifh "number of dimensions" "nDim" header in
  let header := copy_text ifh "matrix size [1]" "nVx" header in
  let header := copy_text ifh "matrix size [2]" "nVy" header in
  let header := copy_text ifh "matrix size [3]" "nVz" header in
  let header := copy_text ifh "matrix size [4]" "nVt" header in
  header <~ copy_float ifh "scaling factor (mm/pixel) [1]" "mmx" header ;;
  header <~ copy_float ifh "scaling factor (mm/pixel) [2]" "mmy" header ;;
  header <~ copy_float ifh "scaling factor (mm/pixel) [3]" "mmz" header ;;
  let header := copy_text ifh "patient ID" "subjcode" header in
  let header := copy_text ifh "date" "filedate" header in
  header <~ copy_vector ifh "mmppix" header ;;
  copy_vector ifh "center" header.

(** ** [Write_4dfp_Header] (lines 1136-1188) *)

(** The state of the writer is the text in the file: the arguments of
    the [print] calls so far, each of which [print] ends with a line
    end. *)
Definition print (s : string) : St (list string) unit :=
  fun out => (Ok tt, app out [s]).

(** [header[key]] of the argument, which the writer only reads. *)
Definition field (header : dict) (key : string) : St (list string) pyval :=
  match header !! key with
  | Some v => ret v
  | None => raise (KeyError key)
  end.

(** ['...' + v]: only a [str] is concatenated to a [str]. *)
Definition text_of (v : pyval) : St (list string) string :=
  match v with
  | VStr s => ret s
  | _ => raise (TypeError "can only concatenate str to str")
  end.

(** The headers of this module are [dict] objects ([Read_4dfp_Header]
    and [nifti_4dfp] build them with [{}] and [dict()]), and a [dict] has
    no attribute [acq]: [header.acq] on line 1167 raises.  The [print]
    calls after it (orientation, dimensions, matrix sizes, scaling
    factors, mmppix, center) are not reached. *)
Definition Write_4dfp_Header (header : dict) (filename : string)
  : St (list string) unit :=
  print ("INTERFILE :=" +:+ nl) ;;;
  v <- field header "version_of_keys" ;;
  version_of_keys <- text_of v ;;
  print ("version of keys := " +:+ version_of_keys +:+ nl) ;;;
  print ("image modality := dot" +:+ nl) ;;;
  print ("originating system := Neuro-DOT" +:+ nl) ;;;
  print ("conversion program := MATLABto4dfp" +:+ nl) ;;;
  print ("original institution := Washington University" +:+ nl) ;;;
  v <- field header "format" ;;
  format <- text_of v ;;
  print ("number format := " +:+ format +:+ nl) ;;;
  print ("name of data file := " +:+ filename +:+ nl) ;;;
  bytes_per_pixel <- field header "bytes_per_pixel" ;;
  print ("number of bytes per pixel := " +:+ py_str bytes_per_pixel +:+ nl) ;;;
  b <- field header "byte" ;;
  byte <- (if py_eq_str b "b" then ret "big"
           else if py_eq_str b "l" then ret "little"
           else raise (UnboundLocalError "byte")) ;;
  print ("imagedata byte order := " +:+ byte +:+ "endian" +:+ nl) ;;;
  raise (AttributeError "acq").

(** The lines of the file the writer left: every [print] ends its text
    with a line end. *)
Definition file_lines (out : list string) : list string :=
  let text := for_each out (fun text s => text +:+ s +:+ nl) EmptyString in
  match reverse (split_on nl text) with
  | EmptyString :: ls => reverse ls
  | ls => reverse ls
  end.

(** ** [LoadVolumetricData], the dispatch on [file_type] *)

(** What the function finds on disk: the lines of the [.4dfp.ifh] file
    and the floats of the [.4dfp.img] file, or the header of the NIfTI
    file. *)
Record files : Type := mk_files {
  ifh_lines : list string;
  img_floats : list float;
  nii_header : dict
}.

Definition LoadVolumetricData (f : files) (file_type : string)
  : result (ndarray * dict) :=
  if bool_decide (file_type = "4dfp") then
    header_out <~ Read_4dfp_Header (ifh_lines f) ;;
    match load_4dfp_volume (img_floats f) header_out with
    | (Ok volume, header_out) => Ok (volume, header_out)
    | (Raise e, _) => Raise e
    end
  else if bool_decide (file_type = "nifti") || bool_decide (file_type = "nii")
          || bool_decide (file_type = "nii.gz") then
    fst (load_nifti_volume (nii_header f))
  else Raise (UnboundLocalError "volume").

End TextHeader.

(** ** [SaveVolumetricData] (lines 790-855) *)

(** [c.lower()] for a one-byte character. *)
Definition lower_ascii (c : ascii) : ascii :=
  let n := nat_of_ascii c in
  if ((65 <=? n) && (n <=? 90))%nat then ascii_of_nat (n + 32) else c.

(** [s.lower()] *)
Fixpoint lower (s : string) : string :=
  match s with
  | EmptyString => EmptyString
  | String c s' => String (lower_ascii c) (lower s')
  end.

(** [np.size(a, axis)]: the length of one axis, an [IndexError] when the
    array has no such axis. *)
Definition np_size (a : ndarray) (axis : nat) : result Z :=
  match shape a !! axis with
  | Some n => Ok (Z.of_nat n)
  | None => Raise IndexError
  end.

(** [v != n] for an integer [n]: a number compares by value, a string or
    a list differs from every integer. *)
Definition py_ne_int (v : pyval) (n : Z) : bool :=
  match v with
  | VInt m => negb (m =? n)
  | VFloat f => negb (f =? Z2float n)%float
  | _ => true
  end.

Section Save.
Context {py : Builtins}.

(** Lines 810-827, the branch of the 4dfp file type.  The warning is
    printed on the standard output and left out.  The call on line 827
    gives [Write_4dfp_Header(header, filename, pn)] two arguments: Python
    refuses it before the body runs, so no file is written. *)
Definition save_4dfp_volume (volume : ndarray) : M unit :=
  nVt <- getitem "nVt" ;;
  size <- lift (np_size volume 3) ;;
  when (py_ne_int nVt size) (setitem "nVt" (VInt size)) ;;;
  acq <- getitem "acq" ;;
  volume <-
    (if py_eq_str acq "transverse" then
       lift (np_flip volume 1)
     else if py_eq_str acq "coronal" then
       lift (v <~ np_flip volume 1 ;; np_flip v 2)
     else if py_eq_str acq "sagittal" then
       lift (v <~ np_flip volume 0 ;; v <~ np_flip v 1 ;; np_flip v 2)
     else ret volume) ;;
  raise (TypeError "Write_4dfp_Header() missing 1 required positional argument: 'pn'").

(** Lines 838-855, the branch of the NIfTI file types.  Under
    ['original_header'] the code expects the header object of nibabel; the
    values of this model are numbers, strings and lists, on which
    ['Description' in nii] or the subscript [nii['srow_x']] is a
    [TypeError].  Without the key the header goes through mode 'n'. *)
Definition save_nifti_volume (volume : ndarray) : M unit :=
  volume <- lift (np_flip volume 0) ;;
  has_original <- contains "original_header" ;;
  if has_original then
    raise (TypeError "original_header is not a NIfTI header")
  else
    r <- nifti_4dfp volume "n" ;;
    (* nb.Nifti1Image and nb.save would follow *)
    ret tt.

(** The dispatch on [file_type.lower()]: with any other file type neither
    branch runs and the function returns. *)
Definition SaveVolumetricData (volume : ndarray) (file_type : string) : M unit :=
  if bool_decide (lower file_type = "4dfp") then save_4dfp_volume volume
  else if bool_decide (lower file_type = "nifti") || bool_decide (lower file_type = "nii")
  then save_nifti_volume volume
  else ret tt.

End Save.

(** ** The two conversions of the public interface, and their round trip *)

Section RoundTrip.
Context {py : Builtins}.

(** A conversion takes a header and a volume and gives the converted
    pair, or raises. *)
Definition convert (mode : string) (hv : dict * ndarray) : result (dict * ndarray) :=
  r <~ fst (nifti_4dfp (snd hv) mode (fst hv)) ;;
  Ok (snd r, fst r).

Definition legacyToStandardized : dict * ndarray -> result (dict * ndarray) :=
  convert "n".

Definition standardizedToLegacy : dict * ndarray -> result (dict * ndarray) :=
  convert "4".

Definition round_trip (hv : dict * ndarray) : result (dict * ndarray) :=
  nii <~ legacyToStandardized hv ;;
  ifh <~ standardizedToLegacy nii ;;
  legacyToStandardized ifh.

(** The writer followed by the reader, on the file the writer left. *)
Definition text_round_trip (header : dict) (filename : string) : result dict :=
  match Write_4dfp_Header header filename [] with
  | (Ok _, out) => Read_4dfp_Header (file_lines out)
  | (Raise e, _) => Raise e
  end.

End RoundTrip.

(** ** Plain decimal text, for the examples *)

Module Examples.

Definition digit_of (c : Ascii.ascii) : option Z :=
  let n := Ascii.nat_of_ascii c in
  if ((48 <=? n) && (n <=? 57))%nat then Some (Z.of_nat (n - 48)) else None.

(** The digits at the head of [s]: their value after [acc], how many
    there are, and the rest of [s]. *)
Fixpoint read_digits (s : string) (acc : Z) (count : nat) : Z * nat * string :=
  match s with
  | String c s' =>
      match digit_of c with
      | Some d => read_digits s' (10 * acc + d) (S count)
      | None => (acc, count, s)
      end
  | EmptyString => (acc, count, s)
  end.

(** A sign, if there is one. *)
Definition read_sign (s : string) : bool * string :=
  match s with
  | String "-"%char s' => (true, s')
  | String "+"%char s' => (false, s')
  | _ => (false, s)
  end.

(** [int(s)] on a signed run of decimal digits. *)
Definition decimal_int (s : string) : option Z :=
  let '(neg, s) := read_sign (strip s) in
  match read_digits s 0 0 with
  | (z, S _, EmptyString) => Some (if neg then - z else z)
  | _ => None
  end.

(** The binary64 nearest to [m / 10^k] for [0 < m]: the quotient is taken
    with more than 60 bits and one more bit that records a remainder. *)
Definition nearest_float (m : Z) (k : nat) : float :=
  let den := 10 ^ Z.of_nat k in
  let s := 64 + Z.log2 den in
  let q := (m * 2 ^ s) / den in
  let sticky := if (m * 2 ^ s) mod den =? 0 then 0 else 1 in
  SF2Prim (SpecFloat.binary_normalize prec emax (2 * q + sticky) (- (s + 1)) false).

(** [float(s)] on a signed decimal numeral with an optional fraction. *)
Definition decimal_float (s : string) : option float :=
  let '(neg, s) := read_sign (strip s) in
  let '(ip, n1, s) := read_digits s 0 0 in
  let '(m, n2, s) :=
    match s with
    | String "."%char s' => read_digits s' ip 0
    | _ => (ip, O, s)
    end in
  match s, (n1 + n2)%nat with
  | EmptyString, S _ =>
      let f := if m =? 0 then 0%float else nearest_float m n2 in
      Some (if neg then (- f)%float else f)
  | _, _ => None
  end.

(** The instance of the examples, whose headers print integers and
    strings only: it reads plain decimal numerals (where Python also reads
    exponents, infinities and digit separators), prints an integer or a
    string as [str] does and no other value, and squares by one
    multiplication. *)
Definition plain_decimal : Builtins := {|
  str_to_int := decimal_int;
  str_to_float := decimal_float;
  py_str := fun v => match v with
                     | VStr s => s
                     | VInt z => pretty z
                     | _ => EmptyString
                     end;
  float_sqr := fun x => (x * x)%float
|}.

End Examples.

(** ** Example headers and files *)

(** A transverse 4dfp header of 64 x 64 x 64 voxels of 2 mm, without
    [mmppix] and [center]. *)
Definition transverse_64 : dict :=
  list_to_map
    [("acq", VStr "transverse");
     ("nVx", VInt 64); ("nVy", VInt 64); ("nVz", VInt 64); ("nVt", VInt 1);
     ("mmx", VFloat 2); ("mmy", VFloat 2); ("mmz", VFloat 2)].

(** The same header once [Make_NativeSpace_4dfp] has completed it. *)
Definition transverse_64_native : dict :=
  <["center" := VList [VFloat 64; VFloat (-66); VFloat (-66)]]>
    (<["mmppix" := VList [VFloat 2; VFloat (-2); VFloat (-2)]]> transverse_64).

Definition volume_64 : ndarray :=
  mk_ndarray [64; 64; 64]%nat (replicate (64 * 64 * 64) 0%float).

(** The same header with the text fields the writer prints. *)
Definition transverse_64_full : dict :=
  <["version_of_keys" := VStr "3.3"]>
    (<["format" := VStr "float"]>
       (<["bytes_per_pixel" := VInt 4]>
          (<["byte" := VStr "l"]>
             (<["nDim" := VInt 4]> transverse_64_native)))).

(** A sagittal and a coronal header of 2 x 2 x 2 voxels, with the fields
    the conversion reads as [LoadVolumetricData] leaves them:
    [Read_4dfp_Header] stores [acq] and never [orientation]. *)
Definition sagittal_222 : dict :=
  list_to_map
    [("acq", VStr "sagittal"); ("filename", VStr "vol");
     ("nVx", VStr "2"); ("nVy", VStr "2"); ("nVz", VStr "2"); ("nVt", VStr "1");
     ("mmx", VFloat 1); ("mmy", VFloat 1); ("mmz", VFloat 1);
     ("mmppix", VList [VFloat 1; VFloat (-1); VFloat (-1)]);
     ("center", VList [VFloat 1; VFloat (-2); VFloat (-2)])].

Definition coronal_222 : dict := <["acq" := VStr "coronal"]> sagittal_222.

Definition volume_222 : ndarray :=
  mk_ndarray [2; 2; 2]%nat [1; 2; 3; 4; 5; 6; 7; 8]%float.

(** A NIfTI header with an oblique affine: its columns (5,4,3), (5,-4,-3)
    and (0,3,-4) are orthogonal, and the first two are largest in the same
    row. *)
Definition oblique_nii : dict :=
  list_to_map
    [("sform_code", VInt 1); ("qform_code", VInt 1);
     ("dim", VList [VInt 3; VInt 2; VInt 2; VInt 2; VInt 1; VInt 1; VInt 1; VInt 1]);
     ("pixdim", VList [VFloat 1; VFloat (sqrt 50); VFloat (sqrt 50); VFloat 5;
                       VFloat 1; VFloat 1; VFloat 1; VFloat 1]);
     ("srow_x", VList [VFloat 5; VFloat 5; VFloat 0; VFloat 0]);
     ("srow_y", VList [VFloat 4; VFloat (-4); VFloat 3; VFloat 0]);
     ("srow_z", VList [VFloat 3; VFloat (-3); VFloat (-4); VFloat 0])].

(** A NIfTI header that carries its geometry in the qform only, as the
    format allows: sform code 0, affine rows of zeros, the identity
    quaternion and voxels of 2 mm. *)
Definition qform_only_nii : dict :=
  list_to_map
    [("sform_code", VInt 0); ("qform_code", VInt 1);
     ("dim", VList [VInt 3; VInt 2; VInt 2; VInt 2; VInt 1; VInt 1; VInt 1; VInt 1]);
     ("pixdim", VList [VFloat 1; VFloat 2; VFloat 2; VFloat 2; VFloat 1; VFloat 1;
                       VFloat 1; VFloat 1]);
     ("quatern_b", VFloat 0); ("quatern_c", VFloat 0); ("quatern_d", VFloat 0);
     ("qoffset_x", VFloat 0); ("qoffset_y", VFloat 0); ("qoffset_z", VFloat 0);
     ("srow_x", VList [VFloat 0; VFloat 0; VFloat 0; VFloat 0]);
     ("srow_y", VList [VFloat 0; VFloat 0; VFloat 0; VFloat 0]);
     ("srow_z", VList [VFloat 0; VFloat 0; VFloat 0; VFloat 0])].

(** A NIfTI header with the identity affine and the codes 4 and 5. *)
Definition mni_nii : dict :=
  list_to_map
    [("sform_code", VInt 4); ("qform_code", VInt 5);
     ("dim", VList [VInt 3; VInt 2; VInt 2; VInt 2; VInt 1; VInt 1; VInt 1; VInt 1]);
     ("pixdim", VList [VFloat 1; VFloat 1; VFloat 1; VFloat 1; VFloat 1; VFloat 1;
                       VFloat 1; VFloat 1]);
     ("srow_x", VList [VFloat 1; VFloat 0; VFloat 0; VFloat 0]);
     ("srow_y", VList [VFloat 0; VFloat 1; VFloat 0; VFloat 0]);
     ("srow_z", VList [VFloat 0; VFloat 0; VFloat 1; VFloat 0])].

(** A 4dfp pair whose header declares 2 x 2 x 2 x 2 voxels and whose image
    file holds 8 floats. *)
Definition mismatch_files : files :=
  mk_files
    ["INTERFILE :=";
     "version of keys := 3.3";
     "number format := float";
     "name of data file := vol";
     "number of bytes per pixel := 4";
     "imagedata byte order := littleendian";
     "orientation := 2";
     "number of dimensions := 4";
     "matrix size [1] := 2";
     "matrix size [2] := 2";
     "matrix size [3] := 2";
     "matrix size [4] := 2";
     "scaling factor (mm/pixel) [1] := 1.000000";
     "scaling factor (mm/pixel) [2] := 1.000000";
     "scaling factor (mm/pixel) [3] := 1.000000"]
    [1; 2; 3; 4; 5; 6; 7; 8]%float
    ∅.

(** What [Read_4dfp_Header] makes of these lines, and its native space. *)
Definition mismatch_header : dict :=
  list_to_map
    [("version_of_keys", VStr "3.3"); ("format", VStr "float");
     ("filename", VStr "vol"); ("bytes_per_pixel", VStr "4"); ("byte", VStr "l");
     ("acq", VStr "transverse"); ("nDim", VStr "4");
     ("nVx", VStr "2"); ("nVy", VStr "2"); ("nVz", VStr "2"); ("nVt", VStr "2");
     ("mmx", VFloat 1); ("mmy", VFloat 1); ("mmz", VFloat 1)].

Definition mismatch_native : dict :=
  <["center" := VList [VFloat 1; VFloat (-2); VFloat (-2)]]>
    (<["mmppix" := VList [VFloat 1; VFloat (-1); VFloat (-1)]]> mismatch_header).

(** A coronal 4dfp pair of 2 x 2 x 2 voxels and one frame. *)
Definition coronal_files : files :=
  mk_files
    ["INTERFILE :=";
     "version of keys := 3.3";
     "number format := float";
     "name of data file := vol";
     "number of bytes per pixel := 4";
     "imagedata byte order := littleendian";
     "orientation := 3";
     "number of dimensions := 4";
     "matrix size [1] := 2";
     "matrix size [2] := 2";
     "matrix size [3] := 2";
     "matrix size [4] := 1";
     "scaling factor (mm/pixel) [1] := 1.000000";
     "scaling factor (mm/pixel) [2] := 1.000000";
     "scaling factor (mm/pixel) [3] := 1.000000"]
    [1; 2; 3; 4; 5; 6; 7; 8]%float
    ∅.

(** What [LoadVolumetricData] returns for it: the header, and the voxels
    with their second and third axes reversed. *)
Definition coronal_header : dict :=
  list_to_map
    [("version_of_keys", VStr "3.3"); ("format", VStr "float");
     ("filename", VStr "vol"); ("bytes_per_pixel", VStr "4"); ("byte", VStr "l");
     ("acq", VStr "coronal"); ("nDim", VStr "4");
     ("nVx", VStr "2"); ("nVy", VStr "2"); ("nVz", VStr "2"); ("nVt", VStr "1");
     ("mmx", VFloat 1); ("mmy", VFloat 1); ("mmz", VFloat 1);
     ("mmppix", VList [VFloat 1; VFloat (-1); VFloat (-1)]);
     ("center", VList [VFloat 1; VFloat (-2); VFloat (-2)])].

Definition coronal_volume : ndarray :=
  mk_ndarray [2; 2; 2]%nat [4; 3; 2; 1; 8; 7; 6; 5]%float.

(** Two frames of one voxel. *)
Definition two_frames : ndarray := mk_ndarray [1; 1; 1; 2]%nat [1; 2]%float.

(** The image of [mismatch_files], byte by byte: the numbers 1 to 8 in
    binary32, the least significant byte first. *)
Definition mismatch_bytes : list Byte.byte :=
  [Byte.x00; Byte.x00; Byte.x80; Byte.x3f;
   Byte.x00; Byte.x00; Byte.x00; Byte.x40;
   Byte.x00; Byte.x00; Byte.x40; Byte.x40;
   Byte.x00; Byte.x00; Byte.x80; Byte.x40;
   Byte.x00; Byte.x00; Byte.xa0; Byte.x40;
   Byte.x00; Byte.x00; Byte.xc0; Byte.x40;
   Byte.x00; Byte.x00; Byte.xe0; Byte.x40;
   Byte.x00; Byte.x00; Byte.x00; Byte.x41].

(** The lines of a header that declares [nVt] frames of 2 x 2 x 2
    voxels of 1 mm. *)
Definition lines_222 (nVt : string) : list string :=
  ["INTERFILE :=";
   "version of keys := 3.3";
   "number format := float";
   "name of data file := vol";
   "number of bytes per pixel := 4";
   "imagedata byte order := littleendian";
   "orientation := 2";
   "number of dimensions := 4";
   "matrix size [1] := 2";
   "matrix size [2] := 2";
   "matrix size [3] := 2";
   "matrix size [4] := " +:+ nVt;
   "scaling factor (mm/pixel) [1] := 1.000000";
   "scaling factor (mm/pixel) [2] := 1.000000";
   "scaling factor (mm/pixel) [3] := 1.000000"].

(** A header that declares -1 frames, with the 64 bytes of two frames. *)
Definition inferred_files : files :=
  mk_files (lines_222 "-1") (np_fromfile (app mismatch_bytes mismatch_bytes)) ∅.

(** A header that declares one frame, with an image of 33 bytes: the
    eight numbers and one byte more. *)
Definition trailing_bytes : list Byte.byte := app mismatch_bytes [Byte.x00].

Definition trailing_files : files :=
  mk_files (lines_222 "1") (np_fromfile trailing_bytes) ∅.

(** A header that declares 2 x 2 x 2 x 2 voxels and no pixel size, with
    the eight numbers. *)
Definition no_size_files : files :=
  mk_files
    ["INTERFILE :=";
     "orientation := 2";
     "matrix size [1] := 2";
     "matrix size [2] := 2";
     "matrix size [3] := 2";
     "matrix size [4] := 2"]
    (np_fromfile mismatch_bytes) ∅.

(** A header that declares 2^63 frames, with the eight numbers. *)
Definition huge_files : files :=
  mk_files (lines_222 "9223372036854775808") (np_fromfile mismatch_bytes) ∅.

(** The shape of the volume a load returned, if it returned. *)
Definition loaded_shape (r : result (ndarray * dict)) : option (list nat) :=
  match r with
  | Ok (volume, _) => Some (shape volume)
  | Raise _ => None
  end.

(** ** Computations that never return *)

(** [c] raises from every state. *)
Definition raises {S A} (c : St S A) : Prop :=
  ∀ s, ∃ e, fst (c s) = Raise e.

(** ** What a computation does to the header, and what the data look like *)

(** A computation that only reads the header. *)
Definition reads {A} (c : M A) : Prop := ∀ h r h', c h = (r, h') → h' = h.

(** A computation that reads the header and then either raises or
    stores one value under [key]. *)
Definition stores (key : string) (c : M unit) : Prop :=
  ∀ h r h', c h = (r, h') →
    (h' = h ∧ ∃ e, r = Raise e) ∨ (r = Ok tt ∧ ∃ v, h' = <[key := v]> h).


(** What [Read_4dfp_Header] can store: a text under one of fourteen
    names, a float under a pixel size, a list of floats under [mmppix] and
    [center]. *)
Definition read_entry (k : string) (v : pyval) : Prop :=
  (k ∈ ["version_of_keys"; "format"; "conversion_program"; "filename";
        "bytes_per_pixel"; "byte"; "acq"; "nDim"; "nVx"; "nVy"; "nVz"; "nVt";
        "subjcode"; "filedate"] ∧ ∃ s, v = VStr s) ∨
  (k ∈ ["mmx"; "mmy"; "mmz"] ∧ ∃ f, v = VFloat f) ∨
  (k ∈ ["mmppix"; "center"] ∧ ∃ fs, v = VList (VFloat <$> fs)).

Definition read_header (h : dict) : Prop :=
  ∀ k v, h !! k = Some v → read_entry k v.

(** What the reader keeps true once the byte order is stored. *)
Definition read_with_byte (h : dict) : Prop :=
  read_header h ∧
  (h !! "byte" = Some (VStr "b") ∨ h !! "byte" = Some (VStr "l")).

(** The array holds as many elements as its shape says. *)
Definition well_shaped (a : ndarray) : Prop :=
  length (data a) = product (shape a).

(** Axes of length one are gone, and [n] axes are left at least. *)
Definition squeezed (n : nat) (a : ndarray) : Prop :=
  Forall (fun d => d ≠ 1%nat) (shape a) ∧ (n ≤ length (shape a))%nat.

(** Runs a computation on a header whose lookups are known. *)
Ltac run_header :=
  unfold bind, contains, getitem, setitem, when, lift, ret, raise;
  repeat (cbn;
          first [ rewrite lookup_insert_eq
                | rewrite lookup_insert_ne by (intro; discriminate)
                | match goal with
                  | E : ?h !! ?k = _ |- context [?h !! ?k] => rewrite E
                  | |- context [@bool_decide ?P ?d] =>
                      let v := eval vm_compute in (@bool_decide P d) in
                      match v with
                      | true => change (@bool_decide P d) with true
                      | false => change (@bool_decide P d) with false
                      end
                  end ]).

Lemma raises_raise {S A} (e : exn) : raises (raise (S := S) (A := A) e).
Proof. intros s. exists e. reflexivity. Qed.

Lemma raises_bind {S A B} (c : St S B) (k : B → St S A) :
  (∀ b, raises (k b)) → raises (bind c k).
Proof.
  intros Hk s. unfold bind. destruct (c s) as [[b|e] s'].
  - apply Hk.
  - exists e. reflexivity.
Qed.

(** One step through a computation that ends by raising. *)
Ltac raises_step :=
  first
    [ apply raises_raise
    | apply raises_bind; intros ?
    | match goal with
      | |- raises (match ?x with _ => _ end) => destruct x
      end ].

(** ** What always raises *)

Section Raising.
Context {py : Builtins}.

(** Mode 'n' ends on line 336 at the latest. *)
Lemma nifti_4dfp_n_raises (img_in : ndarray) : raises (nifti_4dfp_n img_in).
Proof. unfold nifti_4dfp_n. repeat raises_step. Qed.

(** Mode '4' ends on line 557 at the latest. *)
Lemma nifti_4dfp_4_raises (img_in : ndarray) : raises (nifti_4dfp_4 img_in).
Proof. unfold nifti_4dfp_4. repeat raises_step. Qed.

Lemma nifti_4dfp_raises (img_in : ndarray) (mode : string) :
  raises (nifti_4dfp img_in mode).
Proof.
  unfold nifti_4dfp. repeat case_bool_decide.
  - apply nifti_4dfp_n_raises.
  - apply nifti_4dfp_4_raises.
  - apply raises_raise.
Qed.

Lemma nifti_4dfp_mode_n (img_in : ndarray) :
  nifti_4dfp img_in "n" = nifti_4dfp_n img_in.
Proof. reflexivity. Qed.

(** The writer ends on line 1167 at the latest. *)
Lemma Write_4dfp_Header_raises (header : dict) (filename : string) :
  raises (Write_4dfp_Header header filename).
Proof. unfold Write_4dfp_Header. repeat raises_step. Qed.

End Raising.

(** ** The to-LPI step *)

(** X14: the flip mask has three bits, whatever the affine and the
    order. *)
Lemma flip_mask_bounds (sform : matrix) (order : list Z) :
  0 ≤ flip_mask sform order < 8.
Proof.
  unfold flip_mask, for_each. cbn.
  repeat match goal with |- context [if ?b then _ else _] => destruct b end;
    vm_compute; split; easy.
Qed.

(** The test on [used] never excludes a row: the complement of an integer
    [0] or [1 << j] is [-1] or [-(1 << j) - 1], and neither is zero. *)
Lemma used_test_always_true (used : Z) (j : nat) :
  negb (Z.lnot (Z.land used (Z.shiftl 1 (Z.of_nat j))) =? 0) = true.
Proof.
  apply negb_true_iff, Z.eqb_neq. intros Hz.
  assert (Hland : Z.land used (Z.shiftl 1 (Z.of_nat j)) = -1).
  { rewrite <- (Z.lnot_involutive (Z.land _ _)), Hz. reflexivity. }
  assert (Hbit : Z.testbit (Z.land used (Z.shiftl 1 (Z.of_nat j))) (Z.of_nat (S j)) = true).
  { rewrite Hland. apply Z.bits_m1. lia. }
  rewrite Z.land_spec, Z.shiftl_spec, andb_true_iff in Hbit by lia.
  destruct Hbit as [_ Hbit].
  replace (Z.of_nat (S j) - Z.of_nat j) with 1 in Hbit by lia.
  discriminate Hbit.
Qed.

Section ToLPI.
Context {py : Builtins}.

(** C1 (the code departs from it): in mode '4' the to-LPI step gives the
    order 0, 0, 2, in which axis 0 is claimed twice and axis 1 never, both
    on the header that has only a qform (its affine rows, all zero, are
    what the step gets) and on the oblique affine of [oblique_nii].  That
    is not a permutation of 0, 1, 2.  The masks, 0 and 4, have three
    bits. *)
Theorem to_lpi_order_repeats_axis :
  (∃ sform : matrix,
     fst (sform_of_header qform_only_nii) = Ok sform ∧
     to_lpi sform [0; 1; 2; 3] = Ok ([0; 0; 2; 3], 0)) ∧
  (∃ sform : matrix,
     fst (sform_of_header oblique_nii) = Ok sform ∧
     to_lpi sform [0; 1; 2; 3] = Ok ([0; 0; 2; 3], 4)) ∧
  ¬ (take 3 [0; 0; 2; 3] ≡ₚ [0; 1; 2]).
Proof.
  split; [eexists; split; reflexivity|].
  split; [eexists; split; reflexivity|].
  intros Hp. apply Permutation_sym in Hp.
  pose proof (Permutation_in 1 Hp) as Hin. cbn in Hin. lia.
Qed.

End ToLPI.

(** ** The native space *)

Section NativeSpaceFacts.
Context {py : Builtins}.

(** C3 (as amended): a header without [mmppix] and [center], with
    64 x 64 x 64 voxels of 2 mm, is completed with mmppix = [2, -2, -2] and
    center = [64, -66, -66], that is [2*32, -2*33, -2*33]: the pixel sizes
    times [dims/2 + [0, 1, 1]]. *)
Theorem native_space_transverse_64 (h : dict) :
  h !! "mmppix" = None → h !! "center" = None →
  h !! "mmx" = Some (VFloat 2) → h !! "mmy" = Some (VFloat 2) →
  h !! "mmz" = Some (VFloat 2) →
  h !! "nVx" = Some (VInt 64) → h !! "nVy" = Some (VInt 64) →
  h !! "nVz" = Some (VInt 64) →
  Make_NativeSpace_4dfp h =
    (Ok tt,
     <["center" := VList [VFloat (2 * 32); VFloat (-2 * 33); VFloat (-2 * 33)]]>
       (<["mmppix" := VList [VFloat 2; VFloat (-2); VFloat (-2)]]> h)).
Proof.
  intros Hmm Hc Hx Hy Hz Hnx Hny Hnz.
  unfold Make_NativeSpace_4dfp.
  run_header. reflexivity.
Qed.

End NativeSpaceFacts.

(** C3, on the header of the scenario. *)
Lemma native_space_transverse_64_witness :
  Make_NativeSpace_4dfp (py := Examples.plain_decimal) transverse_64 =
    (Ok tt, transverse_64_native).
Proof.
  apply (native_space_transverse_64 (py := Examples.plain_decimal) transverse_64);
    reflexivity.
Defined.

(** C3 as it is stated fails: the first component of the computed center
    is 64, not 2*33. *)
Lemma native_space_center_is_not_66 :
  snd (Make_NativeSpace_4dfp (py := Examples.plain_decimal) transverse_64) !! "center"
  ≠ Some (VList [VFloat (2 * 33); VFloat (-2 * 33); VFloat (-2 * 33)]).
Proof.
  intros Heq.
  pose proof
    (f_equal (fun o => match o with
                       | Some (VList (VFloat x :: _)) => PrimFloat.eqb x 66
                       | _ => true
                       end) Heq) as E.
  vm_compute in E. discriminate.
Qed.

(** ** Mode 'n' *)

Section ModeN.
Context {py : Builtins}.

(** C10: a header with acq = 'sagittal' and no 'orientation' key makes mode
    'n' raise KeyError('orientation'); the header is left with the key
    'orienation'. *)
Theorem sagittal_without_orientation_KeyError (img_in : ndarray) (h : dict) :
  h !! "acq" = Some (VStr "sagittal") →
  h !! "orientation" = None →
  nifti_4dfp img_in "n" h =
    (Raise (KeyError "orientation"), <["orienation" := VInt 4]> h).
Proof.
  intros Hacq Hor.
  rewrite nifti_4dfp_mode_n.
  unfold nifti_4dfp_n, check_orientation, adjust_order.
  run_header. reflexivity.
Qed.

(** C8 (the code departs from it): for a coronal header mode 'n' returns
    no voxel buffer at all; it raises, and without an 'orientation' key it
    raises KeyError('orientation') before any array is made. *)
Theorem coronal_conversion_raises (img_in : ndarray) (h : dict) :
  h !! "acq" = Some (VStr "coronal") →
  ∃ e, fst (nifti_4dfp img_in "n" h) = Raise e ∧
       (h !! "orientation" = None → e = KeyError "orientation").
Proof.
  intros Hacq.
  destruct (nifti_4dfp_raises img_in "n" h) as [e He].
  exists e. split; [exact He|].
  intros Hor. revert He.
  rewrite nifti_4dfp_mode_n.
  unfold nifti_4dfp_n, check_orientation, adjust_order.
  run_header. intros [= <-]. reflexivity.
Qed.

(** C9 (the code departs from it): on the completed transverse header of
    64 x 64 x 64 voxels of 2 mm, mode 'n' raises the TypeError of line 336
    and builds no NIfTI header. *)
Theorem transverse_64_conversion_raises :
  fst (nifti_4dfp volume_64 "n" transverse_64_native) =
    Raise (TypeError "Cannot interpret '4' as a data type").
Proof. vm_compute. reflexivity. Qed.

(** C2 (the code departs from it): the conversion to the standardized form
    raises on every header and volume, and so does the round trip; there is
    no result on either side of the equation. *)
Theorem round_trip_raises (hv : dict * ndarray) :
  (∃ e, legacyToStandardized hv = Raise e) ∧ (∃ e, round_trip hv = Raise e).
Proof.
  assert (Hn : ∃ e, legacyToStandardized hv = Raise e).
  { unfold legacyToStandardized, convert.
    destruct (nifti_4dfp_raises (snd hv) "n" (fst hv)) as [e ->]. by exists e. }
  split; [exact Hn|].
  destruct Hn as [e He]. exists e. unfold round_trip. by rewrite He.
Qed.

End ModeN.

(** C10, on a sagittal header as [LoadVolumetricData] returns it. *)
Lemma sagittal_without_orientation_KeyError_witness :
  nifti_4dfp (py := Examples.plain_decimal) volume_222 "n" sagittal_222 =
    (Raise (KeyError "orientation"), <["orienation" := VInt 4]> sagittal_222).
Proof.
  apply (sagittal_without_orientation_KeyError (py := Examples.plain_decimal));
    reflexivity.
Defined.

(** C8, on a coronal header as [LoadVolumetricData] returns it. *)
Lemma coronal_conversion_raises_witness :
  ∃ e, fst (nifti_4dfp (py := Examples.plain_decimal) volume_222 "n" coronal_222)
       = Raise e ∧
       (coronal_222 !! "orientation" = None → e = KeyError "orientation").
Proof.
  apply (coronal_conversion_raises (py := Examples.plain_decimal)). reflexivity.
Defined.

(** ** Mode '4' and the codes *)

Section Mode4.
Context {py : Builtins}.

(** C7 (the code departs from it): mode '4' emits no 4dfp header, for any
    NIfTI header and volume; it raises by line 557, before the lines that
    would set orientation = 2 and acq = 'transverse'. *)
Theorem nifti_to_4dfp_emits_no_header (img_in : ndarray) (header_in : dict) :
  ∃ e, fst (nifti_4dfp img_in "4" header_in) = Raise e.
Proof. apply nifti_4dfp_raises. Qed.

End Mode4.

(** C5 (as amended): an integer code, inside the enumeration or outside
    it, goes through the normalisation unchanged, and the normalisation
    does not raise. *)
Theorem normalize_code_keeps_integer_code (key : string) (h : dict) (z : Z) :
  h !! key = Some (VInt z) →
  normalize_code key h = (Ok tt, h).
Proof.
  intros Hk. unfold normalize_code, bind, getitem. rewrite Hk. cbn.
  destruct (Z.eqb_spec z 0) as [->|Hz]; [|reflexivity].
  unfold setitem. by rewrite insert_id.
Qed.

(** C5, on the sform code 4. *)
Lemma normalize_code_keeps_integer_code_witness :
  normalize_code "sform_code" mni_nii = (Ok tt, mni_nii).
Proof.
  apply (normalize_code_keeps_integer_code "sform_code" mni_nii 4). reflexivity.
Defined.

(** C5 as it is stated fails: the sform code 4 is outside the enumeration,
    the normalisation returns with the header unchanged, and neither
    [LoadVolumetricData] nor mode '4' raises an UnsupportedCodeError on
    it (they raise on lines 140 and 557, whatever the codes are). *)
Lemma unsupported_code_not_rejected :
  mni_nii !! "sform_code" = Some (VInt 4) ∧
  normalize_code "sform_code" mni_nii = (Ok tt, mni_nii) ∧
  LoadVolumetricData (py := Examples.plain_decimal) (mk_files [] [] mni_nii) "nii" =
    Raise (UnboundLocalError "volume") ∧
  ¬ ∃ e, fst (nifti_4dfp (py := Examples.plain_decimal) volume_222 "4" mni_nii)
         = Raise e ∧
         exn_class e = "UnsupportedCodeError".
Proof.
  split; [reflexivity|]. split; [reflexivity|]. split; [reflexivity|].
  intros (e & He & Hc). vm_compute in He. injection He as <-. discriminate.
Qed.

(** After the normalisation a code is never the string 'unknown': the test
    of line 486 always takes the branch of the affine rows. *)
Lemma normalize_code_not_unknown (key : string) (h h' : dict) (v : pyval) :
  normalize_code key h = (Ok tt, h') →
  h' !! key = Some v →
  py_eq_str v "unknown" = false.
Proof.
  unfold normalize_code, bind, getitem, setitem, ret.
  destruct (h !! key) as [c|] eqn:Hc; [|discriminate].
  destruct (py_eq_str c "scanner");
    [intros [= <-]; rewrite lookup_insert_eq; by intros [= <-]|].
  destruct (py_eq_str c "talairach");
    [intros [= <-]; rewrite lookup_insert_eq; by intros [= <-]|].
  destruct (py_eq_str c "unknown") eqn:Hu;
    [intros [= <-]; rewrite lookup_insert_eq; by intros [= <-]|].
  destruct (py_eq_int c 0);
    [intros [= <-]; rewrite lookup_insert_eq; by intros [= <-]|].
  intros [= <-]. rewrite Hc. by intros [= <-].
Qed.

(** The normalisation keeps the key and touches no other. *)
Lemma normalize_code_lookup (key : string) (h h' : dict) :
  normalize_code key h = (Ok tt, h') →
  is_Some (h' !! key) ∧ ∀ k, k ≠ key → h' !! k = h !! k.
Proof.
  unfold normalize_code, bind, getitem, setitem, ret.
  destruct (h !! key) as [c|] eqn:Hc; [|discriminate].
  repeat match goal with
         | |- context [if ?b then _ else _] => destruct b
         end;
    intros [= <-]; (split; [|intros k Hk]);
    rewrite ?lookup_insert_eq, ?lookup_insert_ne by done; by rewrite ?Hc.
Qed.

Section DeadBranch.
Context {py : Builtins}.

(** X15: the quaternion and the pixel sizes are never read: [sform]
    always comes from the affine rows, also when the sform code is 0. *)
Lemma sform_of_header_reads_rows (h : dict) :
  sform_of_header h =
    (normalize_code "sform_code" ;;; normalize_code "qform_code" ;;;
     srow_sform (np_zeros 4 4)) h.
Proof.
  unfold sform_of_header, bind.
  destruct (normalize_code "sform_code" h) as [[[]|e] h1] eqn:E1; [|done].
  destruct (normalize_code "qform_code" h1) as [[[]|e] h2] eqn:E2; [|done].
  destruct (normalize_code_lookup _ _ _ E1) as [[v Hv] _].
  destruct (normalize_code_lookup _ _ _ E2) as [_ Hother].
  unfold getitem. rewrite Hother, Hv by done.
  by rewrite (normalize_code_not_unknown _ _ _ _ E1 Hv).
Qed.

End DeadBranch.

(** ** Loading a 4dfp volume *)

(** [np.fromfile] returns one number for every four bytes. *)
Lemma np_fromfile_length (bytes : list Byte.byte) :
  length (np_fromfile bytes) = (length bytes / 4)%nat.
Proof.
  assert (H : ∀ n (bs : list Byte.byte), (length bs ≤ n)%nat →
              length (np_fromfile bs) = (length bs / 4)%nat).
  { intros n. induction n as [|n IH]; intros bs Hn.
    - destruct bs; [reflexivity|cbn in Hn; lia].
    - destruct bs as [|b0 [|b1 [|b2 [|b3 rest]]]]; try reflexivity.
      cbn [np_fromfile length]. rewrite IH by (cbn in Hn; lia).
      change (S (S (S (S (length rest))))) with (1 * 4 + length rest)%nat.
      rewrite Nat.div_add_l by lia. lia. }
  by apply (H (length bytes)).
Qed.

(** [np.reshape] refuses a shape of entries of an [intp], none negative,
    whose product is not the number of elements, and its message carries
    both. *)
Lemma np_reshape_mismatch (a : list float) (shp : list Z) :
  Forall (λ d, 0 ≤ d < 2 ^ 63) shp →
  fold_right Z.mul 1 shp ≠ Z.of_nat (length a) →
  np_reshape a shp = Raise (ReshapeError (Z.of_nat (length a)) shp).
Proof.
  intros Hpos Hne. unfold np_reshape.
  assert (Hin : existsb (λ d, (d <? - 2 ^ 63) || (2 ^ 63 <=? d)) shp = false).
  { clear Hne. induction Hpos as [|d l Hd _ IH]; [done|].
    cbn [existsb]. rewrite IH.
    replace (d <? - 2 ^ 63) with false by (symmetry; apply Z.ltb_ge; lia).
    replace (2 ^ 63 <=? d) with false by (symmetry; apply Z.leb_gt; lia).
    reflexivity. }
  assert (Hneg : filter (λ d, d < 0) shp = []).
  { clear Hne Hin. induction Hpos as [|d l Hd _ IH]; [done|].
    rewrite filter_cons_False by lia. exact IH. }
  assert (Hall : filter (λ d, 0 ≤ d) shp = shp).
  { clear Hne Hin Hneg. induction Hpos as [|d l Hd _ IH]; [done|].
    rewrite filter_cons_True by lia. f_equal. exact IH. }
  rewrite Hin, Hneg, Hall. cbn [length].
  destruct (2 ^ 63 <=? fold_right Z.mul 1 shp); [reflexivity|].
  destruct (Z.eqb_spec (fold_right Z.mul 1 shp) (Z.of_nat (length a))); [done|].
  reflexivity.
Qed.

Section LoadFacts.
Context {py : Builtins}.

(** C6 (as amended): take a 4dfp pair whose header [Read_4dfp_Header]
    reads and [Make_NativeSpace_4dfp] completes, and whose dimensions
    [int()] turns into integers from 0 to 2^63 - 1.  When their product is
    not the number of whole 4-byte items of the image file (its byte count
    divided by 4, rounded down), [LoadVolumetricData] raises the
    ValueError of [np.reshape], which names the number of items read and
    the declared shape. *)
Theorem load_4dfp_shape_mismatch
  (f : files) (bytes : list Byte.byte) (h h' : dict)
  (vx vy vz vt : pyval) (nx ny nz nt : Z) :
  img_floats f = np_fromfile bytes →
  Read_4dfp_Header (ifh_lines f) = Ok h →
  Make_NativeSpace_4dfp h = (Ok tt, h') →
  h' !! "nVx" = Some vx → py_int vx = Ok nx →
  h' !! "nVy" = Some vy → py_int vy = Ok ny →
  h' !! "nVz" = Some vz → py_int vz = Ok nz →
  h' !! "nVt" = Some vt → py_int vt = Ok nt →
  0 ≤ nx < 2 ^ 63 → 0 ≤ ny < 2 ^ 63 → 0 ≤ nz < 2 ^ 63 → 0 ≤ nt < 2 ^ 63 →
  nx * ny * nz * nt ≠ Z.of_nat (length bytes / 4) →
  ∃ e, LoadVolumetricData f "4dfp" = Raise e ∧
       e = ReshapeError (Z.of_nat (length bytes / 4)) [nx; ny; nz; nt] ∧
       exn_class e = "ValueError".
Proof.
  intros Himg Hread Hnat Hvx Hnx Hvy Hny Hvz Hnz Hvt Hnt Px Py Pz Pt Hne.
  eexists. split; [|split; reflexivity].
  unfold LoadVolumetricData.
  change (bool_decide ("4dfp" = "4dfp")) with true. cbn match.
  rewrite Hread. cbn [rbind].
  unfold load_4dfp_volume.
  unfold bind at 1. rewrite Hnat.
  run_header.
  rewrite Hnx, Hny, Hnz, Hnt.
  rewrite np_reshape_mismatch; [by rewrite Himg, np_fromfile_length| |].
  - repeat (apply List.Forall_cons; [assumption|]). apply List.Forall_nil.
  - rewrite Himg, np_fromfile_length. cbn [fold_right]. lia.
Qed.

End LoadFacts.

(** C6, on a file pair that declares 16 voxels and holds the 32 bytes of
    8. *)
Lemma load_4dfp_shape_mismatch_witness :
  ∃ e, LoadVolumetricData (py := Examples.plain_decimal) mismatch_files "4dfp"
       = Raise e ∧
       e = ReshapeError 8 [2; 2; 2; 2] ∧ exn_class e = "ValueError".
Proof.
  refine (load_4dfp_shape_mismatch (py := Examples.plain_decimal) mismatch_files
            mismatch_bytes mismatch_header mismatch_native
            (VStr "2") (VStr "2") (VStr "2") (VStr "2") 2 2 2 2
            _ _ _ _ _ _ _ _ _ _ _ _ _ _ _ _);
    first [vm_compute; reflexivity | cbn; lia].
Defined.

(** C6 as it is stated fails, five times over.  The exception of a
    mismatch is numpy's ValueError, not a ShapeMismatchError.  A header
    that declares -1 frames is loaded with the two frames the file holds.
    An image of 33 bytes is loaded as the 8 voxels its header declares.
    A mismatched pair without a pixel size raises KeyError('mmx') before
    the shapes are compared.  A dimension of 2^63 raises a ValueError that
    names neither size. *)
Lemma shape_mismatch_not_as_stated :
  (LoadVolumetricData (py := Examples.plain_decimal) mismatch_files "4dfp" =
     Raise (ReshapeError 8 [2; 2; 2; 2]) ∧
   exn_class (ReshapeError 8 [2; 2; 2; 2]) ≠ "ShapeMismatchError") ∧
  loaded_shape (LoadVolumetricData (py := Examples.plain_decimal) inferred_files "4dfp")
    = Some [2; 2; 2; 2]%nat ∧
  (length trailing_bytes = 33%nat ∧
   loaded_shape (LoadVolumetricData (py := Examples.plain_decimal) trailing_files "4dfp")
     = Some [2; 2; 2]%nat) ∧
  LoadVolumetricData (py := Examples.plain_decimal) no_size_files "4dfp" =
    Raise (KeyError "mmx") ∧
  LoadVolumetricData (py := Examples.plain_decimal) huge_files "4dfp" =
    Raise (ValueError "Maximum allowed dimension exceeded").
Proof.
  split; [split; [vm_compute; reflexivity|discriminate]|].
  split; [vm_compute; reflexivity|].
  split; [split; vm_compute; reflexivity|].
  split; vm_compute; reflexivity.
Qed.

(** ** The text header *)

Section TextFacts.
Context {py : Builtins}.

(** C4 (the code departs from it): the writer raises on every header, so
    no header is written in full and read back. *)
Theorem text_round_trip_raises (header : dict) (filename : string) :
  ∃ e, fst (Write_4dfp_Header header filename []) = Raise e ∧
       text_round_trip header filename = Raise e.
Proof.
  destruct (Write_4dfp_Header_raises header filename []) as [e He].
  exists e. split; [exact He|].
  unfold text_round_trip. destruct (Write_4dfp_Header header filename []) as [r out].
  cbn in He. by subst r.
Qed.

End TextFacts.

(** On a header that has every field, the writer stops at [header.acq]
    after ten lines; read back, they give no dimension, no orientation and
    no pixel size. *)
Lemma Write_4dfp_Header_stops_at_acq :
  let out := Write_4dfp_Header (py := Examples.plain_decimal) transverse_64_full "vol" [] in
  fst out = Raise (AttributeError "acq") ∧
  length (snd out) = 10%nat ∧
  ∃ h, Read_4dfp_Header (py := Examples.plain_decimal) (file_lines (snd out)) = Ok h ∧
       h !! "filename" = Some (VStr "vol") ∧
       h !! "nVx" = None ∧ h !! "acq" = None ∧ h !! "mmppix" = None.
Proof.
  cbv zeta. split; [vm_compute; reflexivity|]. split; [vm_compute; reflexivity|].
  destruct (Read_4dfp_Header (file_lines _)) as [h|e] eqn:Hread.
  - exists h. split; [reflexivity|].
    apply (f_equal (λ r, match r with
                         | Ok h => (h !! "filename", h !! "nVx", h !! "acq", h !! "mmppix")
                         | Raise _ => (None, None, None, None)
                         end)) in Hread.
    vm_compute in Hread. injection Hread as H1 H2 H3 H4.
    repeat split; symmetry; assumption.
  - exfalso. apply (f_equal is_ok) in Hread. vm_compute in Hread. discriminate.
Qed.

(** * More of the code *)

(** ** Running a computation *)

Lemma bind_ok {S A B} (c : St S A) (k : A → St S B) (s s' : S) (a : A) :
  c s = (Ok a, s') → bind c k s = k a s'.
Proof. intros Hc. unfold bind. by rewrite Hc. Qed.

Lemma bind_raise {S A B} (c : St S A) (k : A → St S B) (s s' : S) (e : exn) :
  c s = (Raise e, s') → bind c k s = (Raise e, s').
Proof. intros Hc. unfold bind. by rewrite Hc. Qed.

(** Splits a run of [bind c k] into the run of [c] and what follows. *)
Lemma bind_inv {S A B} (c : St S A) (k : A → St S B) (s s' : S) (r : result B) :
  bind c k s = (r, s') →
  (∃ a s1, c s = (Ok a, s1) ∧ k a s1 = (r, s')) ∨
  (∃ e, c s = (Raise e, s') ∧ r = Raise e).
Proof.
  unfold bind. destruct (c s) as [[a|e] s1]; intros Hr.
  - left. by exists a, s1.
  - right. exists e. by simplify_eq.
Qed.

Lemma reads_ret {A} (a : A) : reads (ret a).
Proof. by intros h r h' [= _ <-]. Qed.
Lemma reads_raise {A} (e : exn) : reads (raise (A := A) e).
Proof. by intros h r h' [= _ <-]. Qed.
Lemma reads_lift {A} (x : result A) : reads (lift x).
Proof. by intros h r h' [= _ <-]. Qed.
Lemma reads_contains (k : string) : reads (contains k).
Proof. by intros h r h' [= _ <-]. Qed.
Lemma reads_getitem (k : string) : reads (getitem k).
Proof. intros h r h'. unfold getitem. by destruct (h !! k); intros [= _ <-]. Qed.
Lemma reads_bind {A B} (c : M A) (k : A → M B) :
  reads c → (∀ a, reads (k a)) → reads (bind c k).
Proof.
  intros Hc Hk h r h' Hrun.
  destruct (bind_inv _ _ _ _ _ Hrun) as [(a & s1 & H1 & H2)|(e & H1 & _)].
  - apply Hc in H1 as ->. by apply Hk in H2.
  - by apply Hc in H1.
Qed.

Ltac reads_tac :=
  repeat first
    [ apply reads_ret | apply reads_raise | apply reads_lift
    | apply reads_contains | apply reads_getitem
    | apply reads_bind; [|intros ?]
    | match goal with
      | |- reads (match ?x with _ => _ end) => destruct x
      | |- reads (when ?b _) => destruct b; cbn [when]
      end ].

Lemma stores_setitem (key : string) (v : pyval) : stores key (setitem key v).
Proof. intros h r h' [= <- <-]. right. split; [done|]. by exists v. Qed.

Lemma stores_bind {A} (key : string) (c : M A) (k : A → M unit) :
  reads c → (∀ a, stores key (k a)) → stores key (bind c k).
Proof.
  intros Hc Hk h r h' Hrun.
  destruct (bind_inv _ _ _ _ _ Hrun) as [(a & s1 & H1 & H2)|(e & H1 & ->)].
  - apply Hc in H1 as ->. by apply Hk in H2.
  - apply Hc in H1 as ->. left. split; [done|]. by exists e.
Qed.

Ltac stores_tac :=
  repeat first
    [ apply stores_setitem
    | apply stores_bind; [reads_tac|intros ?]
    | match goal with
      | |- stores _ (match ?x with _ => _ end) => destruct x
      end ].

(** [if key not in header: body], where [body] stores under [key]. *)
Lemma fill_missing_outcome (key : string) (body : M unit) (h h' : dict) (r : result unit) :
  stores key body →
  when (negb (bool_decide (is_Some (h !! key)))) body h = (r, h') →
  ((h' = h ∧ (is_Some (h !! key) ∨ ∃ e, r = Raise e)) ∨
   (h !! key = None ∧ r = Ok tt ∧ ∃ v, h' = <[key := v]> h)) ∧
  (r = Ok tt → is_Some (h' !! key)).
Proof.
  intros Hbody.
  case_bool_decide as Hk; cbn [negb when].
  - intros [= <- <-]. split; [left; split; [done|by left]|done].
  - apply eq_None_not_Some in Hk. intros Hrun.
    destruct (Hbody _ _ _ Hrun) as [[-> [e ->]]|[-> [v ->]]].
    + split; [left; split; [done|right; by exists e]|done].
    + split; [right; split; [done|split; [done|by exists v]]|].
      intros _. by rewrite lookup_insert_eq.
Qed.

Section NativeSpaceMore.
Context {py : Builtins}.

(** The two halves of [Make_NativeSpace_4dfp]: each leaves the header as
    it is or adds its key, and both keys are there when the function
    returns. *)
Lemma Make_NativeSpace_4dfp_outcome (h h' : dict) (r : result unit) :
  Make_NativeSpace_4dfp h = (r, h') →
  ∃ h1,
    (h1 = h ∨ (h !! "mmppix" = None ∧ ∃ v, h1 = <["mmppix" := v]> h)) ∧
    (h' = h1 ∨ (h1 !! "center" = None ∧ ∃ v, h' = <["center" := v]> h1)) ∧
    (r = Ok tt → is_Some (h' !! "mmppix") ∧ is_Some (h' !! "center")).
Proof.
  unfold Make_NativeSpace_4dfp. intros Hrun.
  destruct (bind_inv _ _ _ _ _ Hrun) as [(has & h0 & H1 & H2)|(e & H1 & _)];
    [|discriminate H1].
  injection H1 as <- <-.
  destruct (bind_inv _ _ _ _ _ H2) as [([] & h1 & H3 & H4)|(e & H3 & ->)].
  - apply fill_missing_outcome in H3 as [F1 P1]; [|stores_tac].
    destruct (bind_inv _ _ _ _ _ H4) as [(has & h2 & H5 & H6)|(e & H5 & _)];
      [|discriminate H5].
    injection H5 as <- <-.
    apply fill_missing_outcome in H6 as [F2 P2]; [|stores_tac].
    exists h1. split; [|split].
    + destruct F1 as [[-> _]|(? & _ & ?)]; [by left|by right].
    + destruct F2 as [[-> _]|(? & _ & ?)]; [by left|by right].
    + intros ->. split; [|by apply P2].
      destruct F2 as [[-> _]|(_ & _ & v & ->)]; [by apply P1|].
      rewrite lookup_insert_ne by done. by apply P1.
  - apply fill_missing_outcome in H3 as [F1 _]; [|stores_tac].
    exists h'. split; [|split; [by left|done]].
    destruct F1 as [[-> _]|(_ & ? & _)]; [by left|done].
Qed.

(** X1: the function only adds: whatever the outcome, an entry of the
    header is still there with its value. *)
Theorem Make_NativeSpace_4dfp_keeps_entries
  (h h' : dict) (r : result unit) (k : string) (v : pyval) :
  Make_NativeSpace_4dfp h = (r, h') →
  h !! k = Some v →
  h' !! k = Some v.
Proof.
  intros Hrun Hk.
  destruct (Make_NativeSpace_4dfp_outcome _ _ _ Hrun) as (h1 & F1 & F2 & _).
  assert (H1 : h1 !! k = Some v).
  { destruct F1 as [->|(Hn & m & ->)]; [done|].
    rewrite lookup_insert_ne; [done|]. intros <-. congruence. }
  destruct F2 as [->|(Hn & c & ->)]; [done|].
  rewrite lookup_insert_ne; [done|]. intros <-. congruence.
Qed.

(** It changes no key other than [mmppix] and [center]. *)
Lemma Make_NativeSpace_4dfp_other_keys
  (h h' : dict) (r : result unit) (k : string) :
  Make_NativeSpace_4dfp h = (r, h') →
  k ≠ "mmppix" → k ≠ "center" →
  h' !! k = h !! k.
Proof.
  intros Hrun Hm Hc.
  destruct (Make_NativeSpace_4dfp_outcome _ _ _ Hrun) as (h1 & F1 & F2 & _).
  destruct F1 as [->|(_ & m & ->)], F2 as [->|(_ & c & ->)];
    by rewrite ?lookup_insert_ne by done.
Qed.

(** A header that has both keys is returned as it is. *)
Lemma Make_NativeSpace_4dfp_complete (h : dict) :
  is_Some (h !! "mmppix") → is_Some (h !! "center") →
  Make_NativeSpace_4dfp h = (Ok tt, h).
Proof.
  intros Hm Hc. unfold Make_NativeSpace_4dfp, bind, contains.
  rewrite bool_decide_eq_true_2 by done. cbn [negb when]. unfold ret at 1.
  cbn beta iota. rewrite bool_decide_eq_true_2 by done. reflexivity.
Qed.

(** X2: a second call changes nothing: once the function has returned, it
    returns again with the same header. *)
Theorem Make_NativeSpace_4dfp_idempotent (h h' : dict) :
  Make_NativeSpace_4dfp h = (Ok tt, h') →
  Make_NativeSpace_4dfp h' = (Ok tt, h').
Proof.
  intros Hrun.
  destruct (Make_NativeSpace_4dfp_outcome _ _ _ Hrun) as (_ & _ & _ & P).
  destruct (P eq_refl). by apply Make_NativeSpace_4dfp_complete.
Qed.

(** X3: the native space of a header with float pixel sizes and
    dimensions that [int()] accepts (integers, or the digits
    [Read_4dfp_Header] leaves): mmppix = [mmx, -mmy, -mmz] and center =
    mmppix times (dims/2 + [0, 1, 1]), component by component in
    binary64. *)
Theorem Make_NativeSpace_4dfp_formula
  (h : dict) (mx my mz : float) (vx vy vz : pyval) (nx ny nz : Z)
  (fx fy fz : float) :
  h !! "mmppix" = None → h !! "center" = None →
  h !! "mmx" = Some (VFloat mx) → h !! "mmy" = Some (VFloat my) →
  h !! "mmz" = Some (VFloat mz) →
  h !! "nVx" = Some vx → h !! "nVy" = Some vy → h !! "nVz" = Some vz →
  py_int vx = Ok nx → py_int vy = Ok ny → py_int vz = Ok nz →
  int_to_float nx = Ok fx → int_to_float ny = Ok fy → int_to_float nz = Ok fz →
  Make_NativeSpace_4dfp h =
    (Ok tt,
     <["center" := VList [VFloat (mx * (fx / 2 + 0));
                          VFloat (- my * (fy / 2 + 1));
                          VFloat (- mz * (fz / 2 + 1))]]>
       (<["mmppix" := VList [VFloat mx; VFloat (- my); VFloat (- mz)]]> h)).
Proof.
  intros Hmm Hc Hx Hy Hz Hnx Hny Hnz Hpx Hpy Hpz Hfx Hfy Hfz.
  unfold Make_NativeSpace_4dfp.
  run_header. rewrite Hpx. cbn. rewrite Hpy. cbn. rewrite Hpz. cbn.
  rewrite Hfx. cbn. rewrite Hfy. cbn. rewrite Hfz. reflexivity.
Qed.


End NativeSpaceMore.

(** ** What the reader returns *)

Lemma read_header_empty : read_header ∅.
Proof. intros k v. by rewrite lookup_empty. Qed.

Lemma read_header_insert (h : dict) (k : string) (v : pyval) :
  read_entry k v → read_header h → read_header (<[k := v]> h).
Proof.
  intros Hkv Hh k' v'. rewrite lookup_insert. case_decide as Hk.
  - intros [= <-]. by subst.
  - apply Hh.
Qed.

Ltac in_list := by repeat constructor.

Section ReadFacts.
Context {py : Builtins}.

Lemma read_header_copy_text (ifh : gmap string string) (src dst : string) (h : dict) :
  read_entry dst (VStr "") → read_header h → read_header (copy_text ifh src dst h).
Proof.
  intros Hd Hh. unfold copy_text. destruct (ifh !! src) as [s|]; [|done].
  apply read_header_insert; [|done].
  destruct Hd as [[Hin _]|[[_ [f Hf]]|[_ [fs Hf]]]]; [|done|done].
  left. split; [done|]. by exists s.
Qed.

Lemma read_header_copy_float (ifh : gmap string string) (src dst : string) (h h' : dict) :
  dst ∈ ["mmx"; "mmy"; "mmz"] → read_header h →
  copy_float ifh src dst h = Ok h' → read_header h'.
Proof.
  intros Hd Hh. unfold copy_float.
  destruct (ifh !! src) as [s|]; [|by intros [= <-]].
  destruct (parse_float s) as [f|e]; [|done]. intros [= <-].
  apply read_header_insert; [|done]. right; left. split; [done|]. by exists f.
Qed.

Lemma rfold_floats (ws : list string) (acc : list pyval) (l : list pyval) (fs0 : list float) :
  acc = VFloat <$> fs0 →
  rfold (fun acc w => f <~ parse_float w ;; Ok (app acc [VFloat f])) ws acc = Ok l →
  ∃ fs, l = VFloat <$> fs.
Proof.
  revert acc fs0. induction ws as [|w ws IH]; intros acc fs0 -> ; cbn.
  - intros [= <-]. by exists fs0.
  - destruct (parse_float w) as [f|e]; [|done]. cbn.
    apply (IH _ (fs0 ++ [f])%list). by rewrite fmap_app.
Qed.

Lemma read_header_copy_vector (ifh : gmap string string) (src : string) (h h' : dict) :
  src ∈ ["mmppix"; "center"] → read_header h →
  copy_vector ifh src h = Ok h' → read_header h'.
Proof.
  intros Hd Hh. unfold copy_vector.
  destruct (ifh !! src) as [s|]; [|by intros [= <-]].
  destruct (rfold _ _ _) as [l|e] eqn:Hl; cbn; [|done]. intros [= <-].
  apply read_header_insert; [|done]. right; right. split; [done|].
  destruct (rfold_floats _ _ _ [] eq_refl Hl) as [fs ->]. by exists fs.
Qed.

(** The two tests on the text of a value, as one insertion each. *)
Lemma byte_order_step (o : option string) (header : dict) :
  match o with
  | Some "littleendian" => <["byte" := VStr "l"]> header
  | _ => <["byte" := VStr "b"]> header
  end =
  <["byte" := match o with Some "littleendian" => VStr "l" | _ => VStr "b" end]> header.
Proof. destruct o as [s|]; [|reflexivity]. repeat case_match; reflexivity. Qed.

Lemma orientation_step (o : option string) (header : dict) :
  let r := match o with
           | Some "2" => <["acq" := VStr "transverse"]> header
           | Some "3" => <["acq" := VStr "coronal"]> header
           | Some "4" => <["acq" := VStr "sagittal"]> header
           | _ => header
           end in
  r = header ∨
  ∃ a, a ∈ ["transverse"; "coronal"; "sagittal"] ∧ r = <["acq" := VStr a]> header.
Proof.
  cbv zeta. destruct o as [s|]; [|by left].
  repeat case_match;
    first [ by left
          | right; exists "transverse"; split; [in_list|reflexivity]
          | right; exists "coronal"; split; [in_list|reflexivity]
          | right; exists "sagittal"; split; [in_list|reflexivity] ].
Qed.

Lemma read_with_byte_insert (h : dict) (k : string) (v : pyval) :
  k ≠ "byte" → read_entry k v → read_with_byte h → read_with_byte (<[k := v]> h).
Proof.
  intros Hk Hkv [Hh Hb]. split; [by apply read_header_insert|].
  by rewrite lookup_insert_ne.
Qed.

Lemma read_with_byte_copy_text (ifh : gmap string string) (src dst : string) (h : dict) :
  dst ≠ "byte" → read_entry dst (VStr "") →
  read_with_byte h → read_with_byte (copy_text ifh src dst h).
Proof.
  intros Hk Hd Hh. unfold copy_text. destruct (ifh !! src) as [s|]; [|done].
  apply read_with_byte_insert; [done| |done].
  destruct Hd as [[Hin _]|[[_ [f Hf]]|[_ [fs Hf]]]]; [|done|done].
  left. split; [done|]. by exists s.
Qed.

Lemma read_with_byte_copy_float
  (ifh : gmap string string) (src dst : string) (h h' : dict) :
  dst ∈ ["mmx"; "mmy"; "mmz"] → read_with_byte h →
  copy_float ifh src dst h = Ok h' → read_with_byte h'.
Proof.
  intros Hd Hh. unfold copy_float.
  destruct (ifh !! src) as [s|]; [|by intros [= <-]].
  destruct (parse_float s) as [f|e]; [|done]. intros [= <-].
  apply read_with_byte_insert; [|right; left; split; [done|by exists f]|done].
  intros ->. by repeat (apply elem_of_cons in Hd as [?|Hd]; [done|]);
    apply elem_of_nil in Hd.
Qed.

Lemma read_with_byte_copy_vector
  (ifh : gmap string string) (src : string) (h h' : dict) :
  src ∈ ["mmppix"; "center"] → read_with_byte h →
  copy_vector ifh src h = Ok h' → read_with_byte h'.
Proof.
  intros Hd Hh. unfold copy_vector.
  destruct (ifh !! src) as [s|]; [|by intros [= <-]].
  destruct (rfold _ _ _) as [l|e] eqn:Hl; cbn; [|done]. intros [= <-].
  destruct (rfold_floats _ _ _ [] eq_refl Hl) as [fs ->].
  apply read_with_byte_insert; [|right; right; split; [done|by exists fs]|done].
  intros ->. by repeat (apply elem_of_cons in Hd as [?|Hd]; [done|]);
    apply elem_of_nil in Hd.
Qed.

Ltac text_entry := left; split; [in_list|by exists ""].

(** The reader, statement by statement. *)
Lemma Read_4dfp_Header_invariant (lines : list string) (h : dict) :
  Read_4dfp_Header lines = Ok h → read_with_byte h.
Proof.
  unfold Read_4dfp_Header.
  generalize (read_pairs lines). intros ifh.
  set (h5 := copy_text ifh "number of bytes per pixel" "bytes_per_pixel" _).
  assert (I5 : read_header h5).
  { subst h5. repeat (apply read_header_copy_text; [text_entry|]).
    apply read_header_empty. }
  clearbody h5.
  set (h6 := match ifh !! "imagedata byte order" with
             | Some "littleendian" => <["byte" := VStr "l"]> h5
             | _ => <["byte" := VStr "b"]> h5
             end).
  assert (I6 : read_with_byte h6).
  { subst h6. rewrite byte_order_step. split.
    - apply read_header_insert; [|done]. left. split; [in_list|].
      destruct (ifh !! _) as [s|]; [|by eexists]. repeat case_match; by eexists.
    - rewrite lookup_insert_eq.
      destruct (ifh !! _) as [s|]; [|by left]. repeat case_match; by auto. }
  clearbody h6.
  set (h7 := match ifh !! "orientation" with
             | Some "2" => <["acq" := VStr "transverse"]> h6
             | Some "3" => <["acq" := VStr "coronal"]> h6
             | Some "4" => <["acq" := VStr "sagittal"]> h6
             | _ => h6
             end).
  assert (I7 : read_with_byte h7).
  { destruct (orientation_step (ifh !! "orientation") h6) as [E|(a & Ha & E)];
      cbv zeta in E; subst h7; rewrite E; [done|].
    apply read_with_byte_insert; [done| |done]. left. split; [in_list|by exists a]. }
  clearbody h7.
  set (h12 := copy_text ifh "matrix size [4]" "nVt" _).
  assert (I12 : read_with_byte h12).
  { subst h12. by repeat (apply read_with_byte_copy_text; [done|text_entry|]). }
  clearbody h12.
  destruct (copy_float ifh _ "mmx" h12) as [h13|e] eqn:E13; [|done].
  apply read_with_byte_copy_float in E13; [|in_list|done]. cbn [rbind].
  destruct (copy_float ifh _ "mmy" h13) as [h14|e] eqn:E14; [|done].
  apply read_with_byte_copy_float in E14; [|in_list|done]. cbn [rbind].
  destruct (copy_float ifh _ "mmz" h14) as [h15|e] eqn:E15; [|done].
  apply read_with_byte_copy_float in E15; [|in_list|done]. cbn [rbind].
  set (h17 := copy_text ifh "date" "filedate" _).
  assert (I17 : read_with_byte h17).
  { subst h17. by repeat (apply read_with_byte_copy_text; [done|text_entry|]). }
  clearbody h17.
  destruct (copy_vector ifh "mmppix" h17) as [h18|e] eqn:E18; [|done].
  apply read_with_byte_copy_vector in E18; [|in_list|done]. cbn [rbind].
  intros E19. by apply read_with_byte_copy_vector in E19; [|in_list|done].
Qed.

(** X5: every entry of the header [Read_4dfp_Header] returns is a text
    under one of fourteen names, a float under [mmx], [mmy] or [mmz], or a
    list of floats under [mmppix] or [center]; the byte order is always
    there, 'b' or 'l'. *)
Theorem Read_4dfp_Header_entries (lines : list string) (h : dict) :
  Read_4dfp_Header lines = Ok h →
  (∀ k v, h !! k = Some v → read_entry k v) ∧
  (h !! "byte" = Some (VStr "b") ∨ h !! "byte" = Some (VStr "l")).
Proof. intros Hread. by apply Read_4dfp_Header_invariant in Hread as [? ?]. Qed.

(** A header that was read has no key ['orientation']. *)
Lemma Read_4dfp_Header_no_orientation (lines : list string) (h : dict) :
  Read_4dfp_Header lines = Ok h → h !! "orientation" = None.
Proof.
  intros Hread. apply Read_4dfp_Header_invariant in Hread as [Hh _].
  destruct (h !! "orientation") as [v|] eqn:Hv; [|done].
  destruct (Hh _ _ Hv) as [[Hin _]|[[Hin _]|[Hin _]]];
    by repeat (apply elem_of_cons in Hin as [?|Hin]; [done|]);
       apply elem_of_nil in Hin.
Qed.

End ReadFacts.

(** ** Mode 'n' on a header that was loaded *)

Section ModeNMore.
Context {py : Builtins}.

(** Lines 227-231 store ['orientation'] for a transverse header only. *)
Lemma check_orientation_other (h : dict) :
  h !! "orientation" = None →
  h !! "acq" ≠ Some (VStr "transverse") →
  ∃ h1, check_orientation h = (Ok tt, h1) ∧ h1 !! "orientation" = None.
Proof.
  intros Hor Hacq. unfold check_orientation, bind, contains, getitem.
  cbn beta.
  destruct (h !! "acq") as [acq|] eqn:Ha.
  - rewrite bool_decide_eq_true_2 by eauto. cbn [when]. rewrite Ha.
    destruct acq as [z|f|s|l]; cbn [py_eq_str]; try by exists h.
    case_bool_decide as Ht; [by subst|].
    case_bool_decide; [|by exists h].
    eexists. split; [reflexivity|]. by rewrite lookup_insert_ne.
  - rewrite bool_decide_eq_false_2 by (by intros [??]). by exists h.
Qed.

(** Line 247 reads ['orientation'] whether or not the key is there. *)
Lemma adjust_order_missing (order : list Z) (h : dict) :
  h !! "orientation" = None →
  adjust_order order h = (Raise (KeyError "orientation"), h).
Proof.
  intros Hor. unfold adjust_order, bind, contains, getitem.
  rewrite bool_decide_eq_false_2 by (rewrite Hor; by intros [??]).
  cbn [when ret]. by rewrite Hor.
Qed.

(** Mode 'n' on a header without ['orientation'] whose acq is not
    'transverse'. *)
Lemma nifti_4dfp_n_missing_orientation (img_in : ndarray) (h : dict) :
  h !! "orientation" = None →
  h !! "acq" ≠ Some (VStr "transverse") →
  ∃ h1, nifti_4dfp img_in "n" h = (Raise (KeyError "orientation"), h1).
Proof.
  intros Hor Hacq.
  destruct (check_orientation_other h Hor Hacq) as (h1 & H1 & Hor1).
  exists h1. rewrite nifti_4dfp_mode_n. unfold nifti_4dfp_n.
  rewrite (bind_ok _ _ _ _ _ H1).
  by rewrite (bind_raise _ _ _ _ _ (adjust_order_missing _ _ Hor1)).
Qed.

(** What [load_4dfp_volume] leaves in the header is what
    [Make_NativeSpace_4dfp] left: the rest only reads. *)
Lemma load_4dfp_volume_header (img : list float) (h h' : dict) (r : result ndarray) :
  load_4dfp_volume img h = (r, h') →
  ∃ r1, Make_NativeSpace_4dfp h = (r1, h').
Proof.
  unfold load_4dfp_volume. intros Hrun.
  destruct (bind_inv _ _ _ _ _ Hrun) as [([] & h1 & H1 & H2)|(e & H1 & _)];
    [|by eexists].
  assert (Hreads : h' = h1); [|subst h'; by eexists].
  revert H2. generalize h1 r h'.
  change (reads (λ h1, (nVx <- getitem "nVx" ;;
      nx <- lift (py_int nVx) ;;
      nVy <- getitem "nVy" ;;
      ny <- lift (py_int nVy) ;;
      nVz <- getitem "nVz" ;;
      nz <- lift (py_int nVz) ;;
      nVt <- getitem "nVt" ;;
      nt <- lift (py_int nVt) ;;
      reshaped <- lift (np_reshape img [nx; ny; nz; nt]) ;;
      let volume := np_squeeze reshaped in
      acq <- getitem "acq" ;;
      if py_eq_str acq "transverse" then
        lift (np_flip volume 1)
      else if py_eq_str acq "coronal" then
        lift (v <~ np_flip volume 1 ;; np_flip v 2)
      else if py_eq_str acq "sagittal" then
        lift (v <~ np_flip volume 0 ;; v <~ np_flip v 1 ;; np_flip v 2)
      else ret volume) h1)).
  reads_tac.
Qed.

(** X11: a coronal or sagittal file that loads cannot be converted: the
    header [LoadVolumetricData] returns has no ['orientation'], and mode
    'n' raises KeyError('orientation') on it. *)
Theorem loaded_header_needs_orientation
  (f : files) (volume img_in : ndarray) (h : dict) :
  LoadVolumetricData f "4dfp" = Ok (volume, h) →
  h !! "acq" ≠ Some (VStr "transverse") →
  h !! "orientation" = None ∧
  fst (nifti_4dfp img_in "n" h) = Raise (KeyError "orientation").
Proof.
  unfold LoadVolumetricData.
  change (bool_decide ("4dfp" = "4dfp")) with true. cbn match.
  destruct (Read_4dfp_Header (ifh_lines f)) as [h0|e] eqn:Hread; [|done].
  cbn [rbind].
  destruct (load_4dfp_volume (img_floats f) h0) as [[v|e] h1] eqn:Hload; [|done].
  intros [= -> ->] Hacq.
  assert (Hor : h !! "orientation" = None).
  { destruct (load_4dfp_volume_header _ _ _ _ Hload) as [r1 Hnat].
    rewrite (Make_NativeSpace_4dfp_other_keys _ _ _ _ Hnat) by done.
    by apply Read_4dfp_Header_no_orientation in Hread. }
  split; [done|].
  by destruct (nifti_4dfp_n_missing_orientation img_in h Hor Hacq) as [h1 ->].
Qed.

End ModeNMore.

(** ** The rows the to-LPI step picks *)

(** The inner loop, from any start and over any rows, with and without
    the bits of [used]. *)
Lemma to_lpi_column_fold (sform : matrix) (used : Z) (i : nat)
  (rows : list nat) (acc : float * Z) :
  fold_left
    (fun '(max, k) j =>
       if negb (Z.lnot (Z.land used (Z.shiftl 1 (Z.of_nat j))) =? 0)
          && (max <? abs (mget sform j i))%float
       then (abs (mget sform j i), Z.of_nat j)
       else (max, k)) rows acc =
  fold_left
    (fun '(max, k) j =>
       if (max <? abs (mget sform j i))%float
       then (abs (mget sform j i), Z.of_nat j)
       else (max, k)) rows acc.
Proof.
  revert acc. induction rows as [|j rows IH]; intros [max k]; [done|].
  cbn [fold_left]. by rewrite used_test_always_true, IH.
Qed.

(** X12: the bit mask [used] has no effect on the row the inner loop picks:
    [np.logical_and(~(used & (1<<j)), ...)] never excludes a row that an
    earlier column took. *)
Theorem to_lpi_column_ignores_used (sform : matrix) (used : Z) (i : nat) :
  to_lpi_column sform used i = to_lpi_column sform 0 i.
Proof.
  unfold to_lpi_column, for_each. by rewrite !to_lpi_column_fold.
Qed.

(** The row the inner loop picks is -1 (no entry of the column compared
    greater than -1), 0, 1 or 2. *)
Lemma to_lpi_column_range (sform : matrix) (used : Z) (i : nat) :
  let k := (to_lpi_column sform used i).2 in
  k = -1 ∨ k = 0 ∨ k = 1 ∨ k = 2.
Proof.
  unfold to_lpi_column, for_each. rewrite to_lpi_column_fold. cbn [fold_left].
  repeat match goal with |- context [if ?b then _ else _] => destruct b end;
    cbn; lia.
Qed.

(** X13: what the loop over the first two columns returns: each column picks
    a row among 0, 1, 2, whatever the other picked; when the two rows
    differ the third entry of [order] is the remaining row, and when they
    are the same row the third entry is left as it was. *)
Theorem to_lpi_order_outcome (sform : matrix) (order order' : list Z) (used : Z) :
  to_lpi_order sform order = Ok (used, order') →
  ∃ k0 k1 : Z,
    0 ≤ k0 ≤ 2 ∧ 0 ≤ k1 ≤ 2 ∧
    used = Z.lor (Z.shiftl 1 k0) (Z.shiftl 1 k1) ∧
    order' =
      if k0 =? k1 then <[1%nat := k1]> (<[0%nat := k0]> order)
      else <[2%nat := 3 - k0 - k1]> (<[1%nat := k1]> (<[0%nat := k0]> order)).
Proof.
  unfold to_lpi_order. cbn [rfold rbind].
  pose proof (to_lpi_column_range sform 0 0) as Hk0. revert Hk0.
  generalize ((to_lpi_column sform 0 0).2). intros k0 Hk0. cbn zeta in Hk0.
  destruct Hk0 as [->|Hk0]; [done|].
  replace (k0 <? 0) with false by (symmetry; apply Z.ltb_ge; lia).
  cbn [rbind].
  pose proof (to_lpi_column_range sform (Z.lor 0 (Z.shiftl 1 k0)) 1) as Hk1.
  revert Hk1.
  generalize ((to_lpi_column sform (Z.lor 0 (Z.shiftl 1 k0)) 1).2).
  intros k1 Hk1. cbn zeta in Hk1.
  destruct Hk1 as [->|Hk1]; [done|].
  replace (k1 <? 0) with false by (symmetry; apply Z.ltb_ge; lia).
  cbn [rbind]. intros Hout. exists k0, k1.
  destruct Hk0 as [->|[->| ->]], Hk1 as [->|[->| ->]];
    cbn in Hout; injection Hout as <- <-; (repeat split; try lia; reflexivity).
Qed.

(** X13, on an affine whose first two columns are largest in rows 1 and 0. *)
Lemma to_lpi_order_outcome_witness :
  ∃ k0 k1 : Z,
    0 ≤ k0 ≤ 2 ∧ 0 ≤ k1 ≤ 2 ∧
    3 = Z.lor (Z.shiftl 1 k0) (Z.shiftl 1 k1) ∧
    [1; 0; 2; 3] =
      if k0 =? k1 then <[1%nat := k1]> (<[0%nat := k0]> [0; 1; 2; 3])
      else <[2%nat := 3 - k0 - k1]> (<[1%nat := k1]> (<[0%nat := k0]> [0; 1; 2; 3])).
Proof.
  apply (to_lpi_order_outcome
           [[0; 2; 0; 0]; [2; 0; 0; 0]; [0; 0; 2; 0]]%float [0; 1; 2; 3]).
  vm_compute. reflexivity.
Defined.

(** ** The voxels of a loaded volume *)

(** ** Voxel arrays *)

Lemma product_cons (n : nat) (s : list nat) :
  product (n :: s) = (n * product s)%nat.
Proof. reflexivity. Qed.

Lemma product_app (s t : list nat) :
  product (s ++ t) = (product s * product t)%nat.
Proof.
  induction s as [|n s IH]; [change (product []) with 1%nat; cbn [app]; lia|].
  cbn [app]. rewrite !product_cons, IH. lia.
Qed.

Lemma product_split (s : list nat) (axis n : nat) :
  s !! axis = Some n →
  product s = (product (take axis s) * (n * product (drop (S axis) s)))%nat.
Proof.
  intros Hn. rewrite <- (take_drop_middle _ _ _ Hn) at 1.
  by rewrite product_app, product_cons.
Qed.

Lemma concat_chunks {A} (sz n : nat) (l : list A) :
  concat (chunks sz n l) = take (sz * n) l.
Proof.
  revert l. induction n as [|n IH]; intros l; cbn [chunks concat].
  - by rewrite Nat.mul_0_r.
  - rewrite IH, take_take_drop. f_equal. lia.
Qed.

Lemma concat_rev_Permutation {A} (ls : list (list A)) :
  concat (rev ls) ≡ₚ concat ls.
Proof.
  induction ls as [|l ls IH]; [done|]. cbn [rev concat].
  rewrite concat_app, IH. cbn. rewrite app_nil_r. apply Permutation_app_comm.
Qed.

(** Reversing the sub-blocks of every block permutes the elements. *)
Lemma flip_blocks_Permutation {A} (inner n outer : nat) (l : list A) :
  concat (map (fun blk => concat (rev (chunks inner n blk)))
              (chunks (n * inner) outer l))
  ≡ₚ take (n * inner * outer) l.
Proof.
  revert l. induction outer as [|outer IH]; intros l; cbn [chunks map concat].
  - by rewrite Nat.mul_0_r.
  - rewrite IH, concat_rev_Permutation, concat_chunks.
    rewrite take_take, (Nat.mul_comm inner n), Nat.min_id, take_take_drop.
    by replace (n * inner + n * inner * outer)%nat
      with (n * inner * S outer)%nat by lia.
Qed.

(** [np.flip] keeps the shape and permutes the elements. *)
Lemma np_flip_Permutation (a b : ndarray) (axis : nat) :
  well_shaped a → np_flip a axis = Ok b →
  shape b = shape a ∧ data b ≡ₚ data a ∧ is_Some (shape a !! axis).
Proof.
  unfold well_shaped, np_flip. intros Hlen.
  destruct (shape a !! axis) as [n|] eqn:Hn; [|done].
  intros [= <-]. cbn [shape data]. split; [done|]. split; [|by eexists].
  rewrite flip_blocks_Permutation, take_ge; [done|].
  rewrite Hlen, (product_split _ _ _ Hn). lia.
Qed.

Lemma np_flip_well_shaped (a b : ndarray) (axis : nat) :
  well_shaped a → np_flip a axis = Ok b → well_shaped b.
Proof.
  intros Hlen Hflip.
  destruct (np_flip_Permutation _ _ _ Hlen Hflip) as (Hs & Hd & _).
  unfold well_shaped in *. by rewrite Hs, Hd.
Qed.

Lemma np_squeeze_product (s : list nat) :
  product (filter (fun d => d ≠ 1%nat) s) = product s.
Proof.
  induction s as [|n s IH]; [done|].
  rewrite filter_cons. case_decide as Hn; rewrite !product_cons.
  - by rewrite IH.
  - destruct (decide (n = 1%nat)) as [->|]; [lia|done].
Qed.

(** The product of a shape in which [u] stands for the negative
    entries. *)
Lemma reshape_product (u : Z) (shp : list Z) :
  0 ≤ u →
  Z.of_nat (product (map (fun d => Z.to_nat (if d <? 0 then u else d)) shp)) =
  fold_right Z.mul 1 (filter (fun d => 0 ≤ d) shp)
  * u ^ Z.of_nat (length (filter (fun d => d < 0) shp)).
Proof.
  intros Hu. induction shp as [|d shp IH]; [done|].
  cbn [map]. rewrite product_cons.
  rewrite Nat2Z.inj_mul, IH, !filter_cons.
  destruct (Z.ltb_spec d 0) as [Hd|Hd].
  - rewrite decide_False by lia. rewrite decide_True by lia.
    cbn [length]. rewrite Nat2Z.inj_succ, Z.pow_succ_r by lia. lia.
  - rewrite decide_True by lia. rewrite decide_False by lia.
    cbn [fold_right]. lia.
Qed.

Lemma reshape_no_negative (u : Z) (shp : list Z) :
  length (filter (fun d => d < 0) shp) = 0%nat →
  map Z.to_nat shp = map (fun d => Z.to_nat (if d <? 0 then u else d)) shp.
Proof.
  induction shp as [|d shp IH]; [done|].
  rewrite filter_cons. case_decide as Hd; [done|]. intros Hlen.
  cbn [map]. rewrite IH by done.
  by replace (d <? 0) with false by (symmetry; apply Z.ltb_ge; lia).
Qed.

Lemma known_nonneg (shp : list Z) :
  0 ≤ fold_right Z.mul 1 (filter (fun d => 0 ≤ d) shp).
Proof.
  induction shp as [|d shp IH]; [cbn; lia|].
  rewrite filter_cons. case_decide; [cbn [fold_right]; lia|done].
Qed.

(** [np.reshape] returns the elements it was given, in a shape that
    holds exactly that many. *)
Lemma np_reshape_well_shaped (a : list float) (shp : list Z) (b : ndarray) :
  np_reshape a shp = Ok b → data b = a ∧ well_shaped b.
Proof.
  unfold np_reshape, well_shaped.
  pose proof (known_nonneg shp) as Hk.
  destruct (existsb _ shp); [done|].
  destruct (2 ^ 63 <=? _); [done|].
  destruct (length (filter (fun d => d < 0) shp)) as [|[|n]] eqn:Hneg; [| |done].
  - case_eq (fold_right Z.mul 1 (filter (fun d => 0 ≤ d) shp) =? Z.of_nat (length a));
      [|done].
    intros Hsz%Z.eqb_eq [= <-]. cbn [data shape]. split; [done|].
    apply Nat2Z.inj. rewrite (reshape_no_negative 0 _ Hneg).
    rewrite reshape_product, Hneg by lia. cbn. lia.
  - destruct (_ || _) eqn:Hbad; [done|].
    apply orb_false_iff in Hbad as [Hz%Z.eqb_neq Hmod%negb_false_iff%Z.eqb_eq].
    intros [= <-]. cbn [data shape]. split; [done|].
    apply Nat2Z.inj.
    rewrite reshape_product, Hneg by (apply Z.div_pos; lia).
    rewrite Z.pow_1_r. symmetry. apply Z.div_exact in Hmod; [|done]. lia.
Qed.

Section LoadFacts.
Context {py : Builtins}.

Lemma getitem_inv (k : string) (h h' : dict) (v : pyval) :
  getitem k h = (Ok v, h') → h' = h ∧ h !! k = Some v.
Proof. unfold getitem. destruct (h !! k); by intros [= <- <-]. Qed.

(** The volume [load_4dfp_volume] returns, and the header with it: the
    elements are those of the file, as many as the shape says; no axis has
    length one; the flips of the header's [acq] found their axes. *)
Lemma load_4dfp_volume_data (img : list float) (h h' : dict) (v : ndarray) :
  load_4dfp_volume img h = (Ok v, h') →
  data v ≡ₚ img ∧ well_shaped v ∧
  ∃ acq, h' !! "acq" = Some acq ∧
    squeezed (if py_eq_str acq "transverse" then 2
              else if py_eq_str acq "coronal" || py_eq_str acq "sagittal"
              then 3 else 0) v.
Proof.
  unfold load_4dfp_volume. intros Hrun.
  apply bind_inv in Hrun as [([] & x0 & _ & Hrun)|(? & ? & ?)]; [|discriminate].
  repeat (apply bind_inv in Hrun as [(? & ? & ? & Hrun)|(? & ? & ?)];
          [|discriminate]).
  repeat match goal with
         | H : lift _ _ = _ |- _ => injection H as H <-
         | H : getitem _ _ = _ |- _ => apply getitem_inv in H as [-> H]
         end.
  match goal with
  | H : np_reshape _ _ = Ok ?a |- _ =>
      apply np_reshape_well_shaped in H as [Hdata Hshape];
      assert (Hsq : data (np_squeeze a) ≡ₚ img ∧ well_shaped (np_squeeze a) ∧
                    Forall (fun d => d ≠ 1%nat) (shape (np_squeeze a)));
      [|generalize dependent (np_squeeze a); intros vol]
  end;
  match goal with H : _ !! "acq" = Some ?a |- _ => rename a into x19 end.
  { unfold well_shaped, np_squeeze in *. cbn [data shape].
    rewrite np_squeeze_product. split; [by rewrite Hdata|]. split; [done|].
    apply Forall_forall. by intros d [? _]%list_elem_of_filter. }
  intros Hrun (Hd & Hw & Hone).
  assert (Hflip : ∀ a b axis, data a ≡ₚ img ∧ well_shaped a ∧
                     Forall (fun d => d ≠ 1%nat) (shape a) →
                     np_flip a axis = Ok b →
                     (data b ≡ₚ img ∧ well_shaped b ∧
                      Forall (fun d => d ≠ 1%nat) (shape b)) ∧
                     (S axis ≤ length (shape b))%nat).
  { intros a b axis (Ha1 & Ha2 & Ha3) Hf.
    destruct (np_flip_Permutation _ _ _ Ha2 Hf) as (Hs & Hp & Hx).
    split; [split; [by rewrite Hp|split;
      [by eapply np_flip_well_shaped|by rewrite Hs]]|].
    rewrite Hs. apply lookup_lt_is_Some in Hx. lia. }
  assert (Hfin : ∀ n, (data v ≡ₚ img ∧ well_shaped v ∧
                        Forall (fun d => d ≠ 1%nat) (shape v)) →
                      (n ≤ length (shape v))%nat →
                      h' = x0 → 
                      (if py_eq_str x19 "transverse" then 2%nat
                       else if py_eq_str x19 "coronal" || py_eq_str x19 "sagittal"
                       then 3%nat else 0%nat) = n →
                      data v ≡ₚ img ∧ well_shaped v ∧
                      ∃ acq, h' !! "acq" = Some acq ∧
                        squeezed (if py_eq_str acq "transverse" then 2
                                  else if py_eq_str acq "coronal"
                                          || py_eq_str acq "sagittal"
                                  then 3 else 0) v).
  { intros n (?&?&?) ? -> Hn. split; [done|]. split; [done|].
    exists x19. split; [done|]. by rewrite Hn. }
  destruct (py_eq_str x19 "transverse") eqn:Ht.
  { injection Hrun as Hrun <-.
    destruct (Hflip _ _ _ (conj Hd (conj Hw Hone)) Hrun) as [? ?].
    by eapply Hfin. }
  destruct (py_eq_str x19 "coronal") eqn:Hc.
  { injection Hrun as Hrun <-.
    destruct (np_flip vol 1) as [v1|] eqn:H1'; [|done]. cbn [rbind] in Hrun.
    destruct (Hflip _ _ _ (conj Hd (conj Hw Hone)) H1') as [Hv1 _].
    destruct (Hflip _ _ _ Hv1 Hrun) as [? ?].
    by eapply Hfin. }
  destruct (py_eq_str x19 "sagittal") eqn:Hs.
  { injection Hrun as Hrun <-.
    destruct (np_flip vol 0) as [v0|] eqn:H0'; [|done]. cbn [rbind] in Hrun.
    destruct (np_flip v0 1) as [v1|] eqn:H1'; [|done]. cbn [rbind] in Hrun.
    destruct (Hflip _ _ _ (conj Hd (conj Hw Hone)) H0') as [Hv0 _].
    destruct (Hflip _ _ _ Hv0 H1') as [Hv1 _].
    destruct (Hflip _ _ _ Hv1 Hrun) as [? ?].
    by eapply Hfin. }
  injection Hrun as <- <-. eapply Hfin; [done|apply Nat.le_0_l|done..].
Qed.

Lemma LoadVolumetricData_4dfp_inv (f : files) (volume : ndarray) (h : dict) :
  LoadVolumetricData f "4dfp" = Ok (volume, h) →
  ∃ h0, Read_4dfp_Header (ifh_lines f) = Ok h0 ∧
        load_4dfp_volume (img_floats f) h0 = (Ok volume, h).
Proof.
  unfold LoadVolumetricData.
  change (bool_decide ("4dfp" = "4dfp")) with true. cbn match.
  destruct (Read_4dfp_Header (ifh_lines f)) as [h0|e] eqn:Hread; [|done].
  cbn [rbind].
  destruct (load_4dfp_volume (img_floats f) h0) as [[v|e] h1] eqn:Hload; [|done].
  intros [= -> ->]. by exists h0.
Qed.

(** X7: loading keeps the voxels: the array [LoadVolumetricData] returns
    holds the floats of the image file, each as often as the file has it,
    and their number is the product of its shape. *)
Theorem LoadVolumetricData_keeps_voxels (f : files) (volume : ndarray) (h : dict) :
  LoadVolumetricData f "4dfp" = Ok (volume, h) →
  data volume ≡ₚ img_floats f ∧
  length (img_floats f) = product (shape volume).
Proof.
  intros (h0 & _ & Hload)%LoadVolumetricData_4dfp_inv.
  destruct (load_4dfp_volume_data _ _ _ _ Hload) as (Hd & Hw & _).
  split; [done|]. by rewrite <- Hd, Hw.
Qed.

(** X8: the shape of a loaded volume: no axis has length one, and the
    volume has the axes its flips need, two at least when the header it
    comes with says 'transverse', three when it says 'coronal' or
    'sagittal'. *)
Theorem LoadVolumetricData_axes (f : files) (volume : ndarray) (h : dict) :
  LoadVolumetricData f "4dfp" = Ok (volume, h) →
  Forall (fun d => d ≠ 1%nat) (shape volume) ∧
  (h !! "acq" = Some (VStr "transverse") → (2 ≤ length (shape volume))%nat) ∧
  (h !! "acq" = Some (VStr "coronal") ∨ h !! "acq" = Some (VStr "sagittal") →
   (3 ≤ length (shape volume))%nat).
Proof.
  intros (h0 & _ & Hload)%LoadVolumetricData_4dfp_inv.
  destruct (load_4dfp_volume_data _ _ _ _ Hload)
    as (_ & _ & acq & Hacq & Hone & Hlen).
  split; [done|]. rewrite Hacq. split.
  - by intros [= ->].
  - by intros [[= ->]|[= ->]].
Qed.

(** X9: the header of a loaded volume has both keys of the native space. *)
Theorem LoadVolumetricData_native_space (f : files) (volume : ndarray) (h : dict) :
  LoadVolumetricData f "4dfp" = Ok (volume, h) →
  is_Some (h !! "mmppix") ∧ is_Some (h !! "center").
Proof.
  intros (h0 & _ & Hload)%LoadVolumetricData_4dfp_inv.
  unfold load_4dfp_volume in Hload.
  destruct (bind_inv _ _ _ _ _ Hload) as [([] & h1 & H1 & H2)|(e & _ & ?)];
    [|done].
  destruct (load_4dfp_volume_header _ _ _ _ Hload) as [r1 Hnat].
  rewrite H1 in Hnat. injection Hnat as _ <-.
  destruct (Make_NativeSpace_4dfp_outcome _ _ _ H1) as (? & _ & _ & P).
  by apply P.
Qed.

(** X10: only '4dfp' loads: with any other file type, the three NIfTI
    names among them, [LoadVolumetricData] raises. *)
Theorem LoadVolumetricData_other_types (f : files) (file_type : string) :
  file_type ≠ "4dfp" → ∃ e, LoadVolumetricData f file_type = Raise e.
Proof.
  intros Hft. unfold LoadVolumetricData.
  rewrite bool_decide_eq_false_2 by done.
  destruct (_ || _); [|by eexists].
  assert (Hraises : raises load_nifti_volume).
  { unfold load_nifti_volume. apply raises_bind. intros _.
    apply raises_bind. intros _. apply raises_raise. }
  destruct (Hraises (nii_header f)) as [e He]. by exists e.
Qed.

End LoadFacts.

(** ** Saving *)

Lemma np_flip_shape (a b : ndarray) (axis : nat) :
  np_flip a axis = Ok b → shape b = shape a.
Proof. unfold np_flip. destruct (shape a !! axis); [|done]. by intros [= <-]. Qed.

(** The shape [np.reshape] gives: the entries asked for, but for the
    negative ones. *)
Lemma np_reshape_shape (a : list float) (shp : list Z) (b : ndarray) :
  np_reshape a shp = Ok b →
  ∃ g : Z → nat, shape b = map g shp ∧ ∀ d, 0 ≤ d → g d = Z.to_nat d.
Proof.
  unfold np_reshape.
  destruct (existsb _ shp); [done|].
  destruct (2 ^ 63 <=? _); [done|].
  destruct (length (filter (fun d => d < 0) shp)) as [|[|n]]; [| |done].
  - destruct (_ =? _); [|done]. intros [= <-]. by exists Z.to_nat.
  - destruct (_ || _); [done|]. intros [= <-]. eexists. split; [reflexivity|].
    intros d Hd. cbn beta.
    by replace (d <? 0) with false by (symmetry; apply Z.ltb_ge; lia).
Qed.

Section SaveFacts.
Context {py : Builtins}.

(** The 4dfp branch never returns: what it does not raise itself, the
    call of [Write_4dfp_Header] raises. *)
Lemma save_4dfp_volume_raises (volume : ndarray) : raises (save_4dfp_volume volume).
Proof. unfold save_4dfp_volume. repeat raises_step. Qed.

(** X18: on a header without ['original_header'], [SaveVolumetricData]
    returns only when the file type is none of '4dfp', 'nifti' and 'nii'
    in any case of the letters, and then it has done nothing: with a
    supported file type it raises. *)
Theorem SaveVolumetricData_returns_iff
  (volume : ndarray) (file_type : string) (h : dict) :
  h !! "original_header" = None →
  (fst (SaveVolumetricData volume file_type h) = Ok tt ↔
   lower file_type ≠ "4dfp" ∧ lower file_type ≠ "nifti" ∧ lower file_type ≠ "nii") ∧
  (fst (SaveVolumetricData volume file_type h) = Ok tt →
   snd (SaveVolumetricData volume file_type h) = h).
Proof.
  intros Horig.
  assert (Hnii : ∃ e, fst (save_nifti_volume volume h) = Raise e).
  { unfold save_nifti_volume, bind, lift, contains.
    destruct (np_flip volume 0) as [v|e]; [|by exists e].
    rewrite bool_decide_eq_false_2 by (rewrite Horig; by intros [??]).
    destruct (nifti_4dfp_raises v "n" h) as [e He]. exists e.
    destruct (nifti_4dfp v "n" h) as [[r|e'] h'];
      cbn in He; [discriminate He|by injection He as ->]. }
  unfold SaveVolumetricData.
  case_bool_decide as H4.
  { destruct (save_4dfp_volume_raises volume h) as [e He]. rewrite He.
    split; [split; [done|by intros [? _]]|done]. }
  case_bool_decide as Hn.
  { destruct Hnii as [e He]. cbn [orb]. rewrite He.
    split; [split; [done|by intros (_ & ? & _)]|done]. }
  case_bool_decide as Hi.
  { destruct Hnii as [e He]. cbn [orb]. rewrite He.
    split; [split; [done|by intros (_ & _ & ?)]|done]. }
  cbn. done.
Qed.

(** X19: saving as 4dfp corrects the frame count in the caller's header
    before it fails: where ['nVt'] differs from the length of the fourth
    axis of the volume it is replaced by that length, and no other entry
    changes. *)
Theorem SaveVolumetricData_4dfp_updates_nVt
  (volume : ndarray) (file_type : string) (h : dict) (nVt : pyval) (n : nat) :
  lower file_type = "4dfp" →
  h !! "nVt" = Some nVt →
  shape volume !! 3%nat = Some n →
  snd (SaveVolumetricData volume file_type h) =
    if py_ne_int nVt (Z.of_nat n) then <["nVt" := VInt (Z.of_nat n)]> h else h.
Proof.
  intros Hft HnVt Hn. unfold SaveVolumetricData.
  rewrite bool_decide_eq_true_2 by done.
  unfold save_4dfp_volume.
  rewrite (bind_ok _ _ h h nVt) by (unfold getitem; by rewrite HnVt).
  rewrite (bind_ok _ _ h h (Z.of_nat n)) by (unfold lift, np_size; by rewrite Hn).
  set (h1 := if py_ne_int nVt (Z.of_nat n) then _ else h).
  rewrite (bind_ok _ _ h h1 tt) by (subst h1; by destruct (py_ne_int _ _)).
  generalize h1. clear. intros h1.
  match goal with
  | |- snd (?c h1) = h1 =>
      assert (Hr : reads c); [reads_tac|]; destruct (c h1) as [r h2] eqn:Hc;
      by apply Hr in Hc
  end.
Qed.


(** The shape of the loaded volume when the header counts one frame. *)
Lemma load_4dfp_volume_one_frame (img : list float) (h h' : dict) (v : ndarray)
  (nVt : pyval) :
  load_4dfp_volume img h = (Ok v, h') →
  h' !! "nVt" = Some nVt → py_int nVt = Ok 1 →
  (length (shape v) ≤ 3)%nat.
Proof.
  unfold load_4dfp_volume. intros Hrun.
  apply bind_inv in Hrun as [([] & x0 & _ & Hrun)|(? & ? & ?)]; [|discriminate].
  repeat (apply bind_inv in Hrun as [(? & ? & ? & Hrun)|(? & ? & ?)];
          [|discriminate]).
  repeat match goal with
         | H : lift _ _ = _ |- _ => injection H as H <-
         | H : getitem _ _ = _ |- _ => apply getitem_inv in H as [-> H]
         end.
  intros HnVt Hone.
  assert (Hsq : ∀ a, shape a = shape v → (length (shape a) ≤ 3)%nat →
                (length (shape v) ≤ 3)%nat) by (by intros a <-).
  match goal with
  | H : np_reshape _ _ = Ok ?a |- _ =>
      apply np_reshape_shape in H as (g & Hshape & Hg);
      assert (Hlen : (length (shape (np_squeeze a)) ≤ 3)%nat);
      [|generalize dependent (np_squeeze a); intros vol]
  end.
  { unfold np_squeeze. cbn [shape]. rewrite Hshape.
    assert (h' = x0) as ->.
    { revert Hrun. repeat case_match; by intros [= _ <-]. }
    match goal with
    | H1 : x0 !! "nVt" = Some ?a, H2 : py_int ?a = Ok ?z |- _ =>
        rewrite HnVt in H1; injection H1 as <-; rewrite Hone in H2;
        injection H2 as <-
    end.
    cbn [map]. rewrite (Hg 1) by lia.
    rewrite !filter_cons, filter_nil.
    repeat case_decide; cbn [length]; lia. }
  intros Hrun Hlen.
  repeat case_match; injection Hrun as Hrun <-;
    repeat match goal with
           | H : (_ <~ ?x ;; _) = Ok _ |- _ =>
               destruct x eqn:?; [cbn [rbind] in H|discriminate H]
           end;
    repeat match goal with
           | H : np_flip _ _ = Ok _ |- _ => apply np_flip_shape in H
           end;
    try subst; congruence.
Qed.

(** X21: a file of one frame that was loaded cannot be saved as 4dfp: the
    loaded volume has lost its fourth axis, and the save raises an
    IndexError. *)
Theorem single_frame_load_save
  (f : files) (volume : ndarray) (h : dict) (nVt : pyval) (file_type : string) :
  LoadVolumetricData f "4dfp" = Ok (volume, h) →
  h !! "nVt" = Some nVt → py_int nVt = Ok 1 →
  lower file_type = "4dfp" →
  SaveVolumetricData volume file_type h = (Raise IndexError, h).
Proof.
  intros (h0 & _ & Hload)%LoadVolumetricData_4dfp_inv HnVt Hone Hft.
  unfold SaveVolumetricData.
  rewrite bool_decide_eq_true_2 by done.
  unfold save_4dfp_volume.
  rewrite (bind_ok _ _ h h nVt) by (unfold getitem; by rewrite HnVt).
  apply bind_raise. unfold lift, np_size.
  rewrite lookup_ge_None_2; [done|].
  pose proof (load_4dfp_volume_one_frame _ _ _ _ _ Hload HnVt Hone). lia.
Qed.

End SaveFacts.

(** ** What the conversion changes in the header *)






Section Frame.
Context {py : Builtins}.








(** X16: normalising a code twice is normalising it once: after a call
    that returned, a second call returns with the same header. *)
Theorem normalize_code_idempotent (key : string) (h h' : dict) :
  normalize_code key h = (Ok tt, h') →
  normalize_code key h' = (Ok tt, h').
Proof.
  unfold normalize_code, bind, getitem, setitem, ret.
  destruct (h !! key) as [c|] eqn:Hc; [|discriminate].
  destruct (py_eq_str c "scanner") eqn:H1;
    [intros [= <-]; rewrite lookup_insert_eq; cbn; by rewrite ?insert_insert_eq|].
  destruct (py_eq_str c "talairach") eqn:H2;
    [intros [= <-]; rewrite lookup_insert_eq; cbn; by rewrite ?insert_insert_eq|].
  destruct (py_eq_str c "unknown") eqn:H3;
    [intros [= <-]; rewrite lookup_insert_eq; cbn; by rewrite ?insert_insert_eq|].
  destruct (py_eq_int c 0) eqn:H4;
    [intros [= <-]; rewrite lookup_insert_eq; cbn; by rewrite ?insert_insert_eq|].
  intros [= <-]. by rewrite Hc, H1, H2, H3, H4.
Qed.

End Frame.

(** ** The writer, and the errors of the reader *)

Section WriterFacts.
Context {py : Builtins}.

(** X23: on a header whose version, number format, bytes per pixel and
    byte order are there (the first two as text, the byte order 'b' or
    'l'), the writer leaves exactly these ten lines in the file and fails
    on [header.acq]: the file has no orientation, no dimension and no
    pixel size. *)
Theorem Write_4dfp_Header_ten_lines
  (header : dict) (filename version format byte : string) (bytes : pyval) :
  header !! "version_of_keys" = Some (VStr version) →
  header !! "format" = Some (VStr format) →
  header !! "bytes_per_pixel" = Some bytes →
  header !! "byte" = Some (VStr byte) →
  byte = "b" ∨ byte = "l" →
  Write_4dfp_Header header filename [] =
    (Raise (AttributeError "acq"),
     ["INTERFILE :=" +:+ nl;
      "version of keys := " +:+ version +:+ nl;
      "image modality := dot" +:+ nl;
      "originating system := Neuro-DOT" +:+ nl;
      "conversion program := MATLABto4dfp" +:+ nl;
      "original institution := Washington University" +:+ nl;
      "number format := " +:+ format +:+ nl;
      "name of data file := " +:+ filename +:+ nl;
      "number of bytes per pixel := " +:+ py_str bytes +:+ nl;
      "imagedata byte order := " +:+ (if bool_decide (byte = "b") then "big" else "little")
        +:+ "endian" +:+ nl]).
Proof.
  intros Hv Hf Hb Hbyte Hcase.
  unfold Write_4dfp_Header, field. rewrite Hv, Hf, Hb, Hbyte.
  destruct Hcase as [-> | ->]; reflexivity.
Qed.

(** X24: whatever the header, the writer never returns and never writes
    more than its first ten lines; the first, [INTERFILE :=], is written
    before any field is read. *)
Theorem Write_4dfp_Header_at_most_ten (header : dict) (filename : string) :
  let out := Write_4dfp_Header header filename [] in
  (∃ e, fst out = Raise e) ∧
  (1 ≤ length (snd out) ≤ 10)%nat ∧
  snd out !! 0%nat = Some ("INTERFILE :=" +:+ nl).
Proof.
  cbv zeta. unfold Write_4dfp_Header, field, text_of, bind, print, ret, raise.
  repeat match goal with
         | |- context [match header !! ?k with _ => _ end] =>
             destruct (header !! k) as [[]|]
         | |- context [if py_eq_str ?b ?s then _ else _] =>
             destruct (py_eq_str b s)
         end;
    cbn; (split; [by eexists|split; [lia|done]]).
Qed.

Lemma copy_float_error (ifh : gmap string string) (src dst : string)
  (h : dict) (e : exn) :
  copy_float ifh src dst h = Raise e →
  e = ValueError "could not convert string to float".
Proof.
  unfold copy_float, parse_float. destruct (ifh !! src) as [s|]; [|done].
  destruct (str_to_float s); [done|]. by intros [= <-].
Qed.

Lemma rfold_floats_error (ws : list string) (acc : list pyval) (e : exn) :
  rfold (fun acc w => f <~ parse_float w ;; Ok (app acc [VFloat f])) ws acc = Raise e →
  e = ValueError "could not convert string to float".
Proof.
  revert acc. induction ws as [|w ws IH]; intros acc; cbn; [done|].
  unfold parse_float at 1. destruct (str_to_float w); cbn; [apply IH|].
  by intros [= <-].
Qed.

Lemma copy_vector_error (ifh : gmap string string) (src : string)
  (h : dict) (e : exn) :
  copy_vector ifh src h = Raise e →
  e = ValueError "could not convert string to float".
Proof.
  unfold copy_vector. destruct (ifh !! src) as [s|]; [|done].
  destruct (rfold _ _ _) as [l|e'] eqn:Hl; cbn; [done|]. intros [= <-].
  by apply rfold_floats_error in Hl.
Qed.

(** X6: once the header file has given its lines, what lines 706-787 do
    with them raises nothing but the ValueError of [float()], on a pixel
    size, [mmppix] or [center] that is not a number: a missing field is no
    error for the reader.  (Opening the file, on lines 701-705, can raise
    before that.) *)
Theorem Read_4dfp_Header_error (lines : list string) :
  (∃ h, Read_4dfp_Header lines = Ok h) ∨
  Read_4dfp_Header lines = Raise (ValueError "could not convert string to float").
Proof.
  destruct (Read_4dfp_Header lines) as [h|e] eqn:Hread; [left; by exists h|].
  right. f_equal. revert Hread.
  unfold Read_4dfp_Header.
  generalize (read_pairs lines). intros ifh.
  set (h12 := copy_text ifh "matrix size [4]" "nVt" _). clearbody h12.
  destruct (copy_float ifh _ "mmx" h12) as [h13|e1] eqn:E13;
    [|intros [= <-]; by apply copy_float_error in E13].
  cbn [rbind].
  destruct (copy_float ifh _ "mmy" h13) as [h14|e1] eqn:E14;
    [|intros [= <-]; by apply copy_float_error in E14].
  cbn [rbind].
  destruct (copy_float ifh _ "mmz" h14) as [h15|e1] eqn:E15;
    [|intros [= <-]; by apply copy_float_error in E15].
  cbn [rbind].
  set (h17 := copy_text ifh "date" "filedate" _). clearbody h17.
  destruct (copy_vector ifh "mmppix" h17) as [h18|e1] eqn:E18;
    [|intros [= <-]; by apply copy_vector_error in E18].
  cbn [rbind]. apply copy_vector_error.
Qed.

End WriterFacts.

Section LoadSave.
Context {py : Builtins}.

(** X22: a coronal or sagittal file that was loaded cannot be saved as
    NIfTI: the flip finds its axis, the header has no ['original_header'],
    and mode 'n' raises KeyError('orientation'). *)
Theorem loaded_volume_save_nifti
  (f : files) (volume : ndarray) (h : dict) (file_type : string) :
  LoadVolumetricData f "4dfp" = Ok (volume, h) →
  h !! "acq" = Some (VStr "coronal") ∨ h !! "acq" = Some (VStr "sagittal") →
  lower file_type = "nifti" ∨ lower file_type = "nii" →
  fst (SaveVolumetricData volume file_type h) = Raise (KeyError "orientation").
Proof.
  intros (h0 & Hread & Hload)%LoadVolumetricData_4dfp_inv Hacq Hft.
  destruct (load_4dfp_volume_data _ _ _ _ Hload)
    as (_ & _ & acq & Ha & _ & Hlen).
  assert (Haxes : (3 ≤ length (shape volume))%nat).
  { rewrite Ha in Hacq. by destruct Hacq as [[= ->]|[= ->]]. }
  assert (Hkeys : ∀ k, k ≠ "mmppix" → k ≠ "center" → h0 !! k = None → h !! k = None).
  { intros k Hm Hc Hk. destruct (load_4dfp_volume_header _ _ _ _ Hload) as [r1 Hnat].
    by rewrite (Make_NativeSpace_4dfp_other_keys _ _ _ _ Hnat). }
  apply Read_4dfp_Header_invariant in Hread as [Hh0 _].
  assert (Hno : ∀ k, k ∉ ["version_of_keys"; "format"; "conversion_program";
                          "filename"; "bytes_per_pixel"; "byte"; "acq"; "nDim";
                          "nVx"; "nVy"; "nVz"; "nVt"; "subjcode"; "filedate";
                          "mmx"; "mmy"; "mmz"; "mmppix"; "center"] →
                     h0 !! k = None).
  { intros k Hk. destruct (h0 !! k) as [v|] eqn:Hv; [|done]. exfalso. apply Hk.
    destruct (Hh0 _ _ Hv) as [[Hin _]|[[Hin _]|[Hin _]]];
      repeat (apply elem_of_cons in Hin as [->|Hin]; [by repeat constructor|]);
      by apply elem_of_nil in Hin. }
  assert (Hnot : ∀ k : string, bool_decide (k ∉ ["version_of_keys"; "format"; "conversion_program";
                          "filename"; "bytes_per_pixel"; "byte"; "acq"; "nDim";
                          "nVx"; "nVy"; "nVz"; "nVt"; "subjcode"; "filedate";
                          "mmx"; "mmy"; "mmz"; "mmppix"; "center"]) = true →
                  k ≠ "mmppix" → k ≠ "center" → h !! k = None).
  { intros k Hk%bool_decide_eq_true ? ?. by apply Hkeys, Hno. }
  unfold SaveVolumetricData.
  rewrite bool_decide_eq_false_2 by (destruct Hft as [-> | ->]; discriminate).
  replace (_ || _) with true
    by (destruct Hft as [-> | ->]; by vm_compute).
  unfold save_nifti_volume.
  destruct (np_flip volume 0) as [v0|e] eqn:Hflip.
  2:{ unfold np_flip in Hflip. destruct (shape volume) as [|n s]; [cbn in Haxes; lia|].
      done. }
  rewrite (bind_ok _ _ h h v0) by done.
  rewrite (bind_ok _ _ h h false).
  2:{ unfold contains. rewrite (Hnot "original_header"); [|by vm_compute|done..].
      by rewrite bool_decide_eq_false_2 by (by intros [??]). }
  destruct (nifti_4dfp_n_missing_orientation v0 h) as [h1 Hn].
  { apply Hnot; [by vm_compute|done..]. }
  { rewrite Ha in Hacq |- *. by destruct Hacq as [[= ->]|[= ->]]. }
  by rewrite (bind_raise _ _ _ _ _ Hn).
Qed.

End LoadSave.

(** ** The properties on the examples *)

Lemma coronal_files_load :
  LoadVolumetricData (py := Examples.plain_decimal) coronal_files "4dfp" =
    Ok (coronal_volume, coronal_header).
Proof. vm_cast_no_check (eq_refl (Ok (coronal_volume, coronal_header))). Qed.

(** X1, on an example. *)
Lemma Make_NativeSpace_4dfp_keeps_entries_witness :
  transverse_64_native !! "nVx" = Some (VInt 64).
Proof.
  apply (Make_NativeSpace_4dfp_keeps_entries (py := Examples.plain_decimal)
           transverse_64 transverse_64_native (Ok tt)); reflexivity.
Defined.

(** X2, on an example. *)
Lemma Make_NativeSpace_4dfp_idempotent_witness :
  Make_NativeSpace_4dfp (py := Examples.plain_decimal) transverse_64_native =
    (Ok tt, transverse_64_native).
Proof.
  apply (Make_NativeSpace_4dfp_idempotent (py := Examples.plain_decimal)
           transverse_64); reflexivity.
Defined.

(** X3, on an example. *)
Lemma Make_NativeSpace_4dfp_formula_witness :
  Make_NativeSpace_4dfp (py := Examples.plain_decimal) mismatch_header =
    (Ok tt, mismatch_native).
Proof.
  apply (Make_NativeSpace_4dfp_formula (py := Examples.plain_decimal)
           mismatch_header 1 1 1 (VStr "2") (VStr "2") (VStr "2") 2 2 2 2 2 2);
    reflexivity.
Defined.


(** X5, on an example. *)
Lemma Read_4dfp_Header_entries_witness :
  read_entry "nVx" (VStr "2") ∧
  (mismatch_header !! "byte" = Some (VStr "b") ∨
   mismatch_header !! "byte" = Some (VStr "l")).
Proof.
  destruct (Read_4dfp_Header_entries (py := Examples.plain_decimal)
              (ifh_lines mismatch_files) mismatch_header) as [Hentries Hbyte].
  - vm_compute. reflexivity.
  - split; [apply Hentries; reflexivity|exact Hbyte].
Defined.

(** X11, on an example. *)
Lemma loaded_header_needs_orientation_witness :
  coronal_header !! "orientation" = None ∧
  fst (nifti_4dfp (py := Examples.plain_decimal) coronal_volume "n" coronal_header)
  = Raise (KeyError "orientation").
Proof.
  apply (loaded_header_needs_orientation (py := Examples.plain_decimal)
           coronal_files coronal_volume coronal_volume coronal_header
           coronal_files_load).
  discriminate.
Defined.


(** X16, on an example. *)
Lemma normalize_code_idempotent_witness :
  normalize_code "sform_code" oblique_nii = (Ok tt, oblique_nii).
Proof.
  apply (normalize_code_idempotent "sform_code"
           (<["sform_code" := VStr "scanner"]> oblique_nii)).
  vm_compute. reflexivity.
Defined.

(** X7, on an example. *)
Lemma LoadVolumetricData_keeps_voxels_witness :
  data coronal_volume ≡ₚ img_floats coronal_files ∧
  length (img_floats coronal_files) = product (shape coronal_volume).
Proof.
  exact (LoadVolumetricData_keeps_voxels (py := Examples.plain_decimal)
           coronal_files coronal_volume coronal_header coronal_files_load).
Defined.

(** X8, on an example. *)
Lemma LoadVolumetricData_axes_witness :
  Forall (fun d => d ≠ 1%nat) (shape coronal_volume) ∧
  (coronal_header !! "acq" = Some (VStr "transverse") →
   (2 ≤ length (shape coronal_volume))%nat) ∧
  (coronal_header !! "acq" = Some (VStr "coronal") ∨
   coronal_header !! "acq" = Some (VStr "sagittal") →
   (3 ≤ length (shape coronal_volume))%nat).
Proof.
  exact (LoadVolumetricData_axes (py := Examples.plain_decimal)
           coronal_files coronal_volume coronal_header coronal_files_load).
Defined.

(** X9, on an example. *)
Lemma LoadVolumetricData_native_space_witness :
  is_Some (coronal_header !! "mmppix") ∧ is_Some (coronal_header !! "center").
Proof.
  exact (LoadVolumetricData_native_space (py := Examples.plain_decimal)
           coronal_files coronal_volume coronal_header coronal_files_load).
Defined.

(** X10, on an example. *)
Lemma LoadVolumetricData_other_types_witness :
  ∃ e, LoadVolumetricData (py := Examples.plain_decimal) coronal_files "nii" = Raise e.
Proof.
  apply (LoadVolumetricData_other_types (py := Examples.plain_decimal)
           coronal_files "nii").
  discriminate.
Defined.

(** X18, on an example. *)
Lemma SaveVolumetricData_returns_iff_witness :
  (fst (SaveVolumetricData (py := Examples.plain_decimal) volume_222 "mat" sagittal_222)
   = Ok tt ↔
   lower "mat" ≠ "4dfp" ∧ lower "mat" ≠ "nifti" ∧ lower "mat" ≠ "nii") ∧
  (fst (SaveVolumetricData (py := Examples.plain_decimal) volume_222 "mat" sagittal_222)
   = Ok tt →
   snd (SaveVolumetricData (py := Examples.plain_decimal) volume_222 "mat" sagittal_222)
   = sagittal_222).
Proof.
  apply (SaveVolumetricData_returns_iff (py := Examples.plain_decimal)
           volume_222 "mat" sagittal_222).
  reflexivity.
Defined.

(** X19, on an example. *)
Lemma SaveVolumetricData_4dfp_updates_nVt_witness :
  snd (SaveVolumetricData (py := Examples.plain_decimal) two_frames "4DFP" sagittal_222)
  = <["nVt" := VInt 2]> sagittal_222.
Proof.
  apply (SaveVolumetricData_4dfp_updates_nVt (py := Examples.plain_decimal)
           two_frames "4DFP" sagittal_222 (VStr "1") 2); reflexivity.
Defined.


(** X21, on an example. *)
Lemma single_frame_load_save_witness :
  SaveVolumetricData (py := Examples.plain_decimal) coronal_volume "4dfp" coronal_header =
    (Raise IndexError, coronal_header).
Proof.
  apply (single_frame_load_save (py := Examples.plain_decimal)
           coronal_files coronal_volume coronal_header (VStr "1") "4dfp"
           coronal_files_load); reflexivity.
Defined.

(** X22, on an example. *)
Lemma loaded_volume_save_nifti_witness :
  fst (SaveVolumetricData (py := Examples.plain_decimal) coronal_volume "NIfTI"
         coronal_header)
  = Raise (KeyError "orientation").
Proof.
  apply (loaded_volume_save_nifti (py := Examples.plain_decimal)
           coronal_files coronal_volume coronal_header "NIfTI" coronal_files_load);
    left; reflexivity.
Defined.

(** X23, on an example. *)
Lemma Write_4dfp_Header_ten_lines_witness :
  Write_4dfp_Header (py := Examples.plain_decimal) transverse_64_full "vol" [] =
    (Raise (AttributeError "acq"),
     ["INTERFILE :=" +:+ nl;
      "version of keys := 3.3" +:+ nl;
      "image modality := dot" +:+ nl;
      "originating system := Neuro-DOT" +:+ nl;
      "conversion program := MATLABto4dfp" +:+ nl;
      "original institution := Washington University" +:+ nl;
      "number format := float" +:+ nl;
      "name of data file := vol" +:+ nl;
      "number of bytes per pixel := 4" +:+ nl;
      "imagedata byte order := littleendian" +:+ nl]).
Proof.
  apply (Write_4dfp_Header_ten_lines (py := Examples.plain_decimal)
           transverse_64_full "vol" "3.3" "float" "l" (VInt 4));
    first [reflexivity | by right].
Defined.
